(** * Home.py: the Swiggy order-history downloader

    A shallow embedding of the order pipeline of [Home.py]: the extractor
    [process_orders_batch], the single-page fetch [fetch_orders_page] with
    its retry, and step 5 of [fetch_swiggy_orders] (the paginator), followed
    by the properties the specification states about them.

    Python values that come out of [response.json()] are modelled by the
    type [json]; a Python [dict] is a [gmap string json].  Python exceptions
    are explicit ([result]); the code that mutates lists or talks to the
    network runs in a small state-and-exception monad [M]. *)

From stdpp Require Import gmap strings list fin_maps.
From Stdlib Require Import ZArith Lia.

Set Warnings "-register-all".

(** ** Python values *)

(** What [json.loads] can return.  Numbers are integers: the fields the
    pipeline inspects ([order_id], [total_orders]) are integral, and every
    other number is copied into a row without being looked at. *)
Inductive json : Type :=
| JNull
| JBool (b : bool)
| JNum (n : Z)
| JStr (s : string)
| JList (l : list json)
| JDict (d : gmap string json).

(** The exceptions the pipeline can meet.  [ConnectionError] is
    [requests.exceptions.ConnectionError]; [RequestException] stands for
    the other exceptions of [requests]; [FetchException e] is the
    [Exception(f"Error while fetching orders: {e}")] of [fetch_orders_page]. *)
Inductive exn : Type :=
| ConnectionError
| RequestException
| JSONDecodeError
| AttributeError
| TypeError
| KeyError
| IndexError
| FetchException (e : exn).

Inductive result (A : Type) : Type :=
| Ok (a : A)
| Raise (e : exn).
Arguments Ok {A} a.
Arguments Raise {A} e.

(** [bool(v)] *)
Definition truthy (v : json) : bool :=
  match v with
  | JNull => false
  | JBool b => b
  | JNum n => negb (Z.eqb n 0)
  | JStr s => negb (bool_decide (s = ""))
  | JList l => negb (bool_decide (l = []))
  | JDict d => negb (bool_decide (d = ∅))
  end.

(** The elements a [for] loop (or [filter]) sees: the elements of a list,
    the characters of a string, the keys of a dict; other values are not
    iterable.  The keys come in the order of the map; the pipeline stops
    at the first character or key it meets, so it depends on no order and
    on no count beyond zero or more. *)
Definition py_iter (v : json) : result (list json) :=
  match v with
  | JList l => Ok l
  | JStr s => Ok ((λ c, JStr (String c EmptyString)) <$> String.list_ascii_of_string s)
  | JDict d => Ok (JStr <$> (map_to_list d).*1)
  | _ => Raise TypeError
  end.

(** [len(v)] *)
Definition py_len (v : json) : result nat :=
  match v with
  | JList l => Ok (length l)
  | JStr s => Ok (String.length s)
  | JDict d => Ok (size d)
  | _ => Raise TypeError
  end.

(** [d.get(k, dflt)] on a dict *)
Definition dict_get (d : gmap string json) (k : string) (dflt : json) : json :=
  default dflt (d !! k).

(** [v.get(k, dflt)]: only a dict has the method. *)
Definition py_get (v : json) (k : string) (dflt : json) : result json :=
  match v with
  | JDict d => Ok (dict_get d k dflt)
  | _ => Raise AttributeError
  end.

(** [v[k]] with a string key *)
Definition py_item (v : json) (k : string) : result json :=
  match v with
  | JDict d => match d !! k with Some x => Ok x | None => Raise KeyError end
  | _ => Raise TypeError
  end.

(** [v[-1]] *)
Definition py_last (v : json) : result json :=
  match v with
  | JList l => match last l with Some x => Ok x | None => Raise IndexError end
  | JStr s =>
      match last (String.list_ascii_of_string s) with
      | Some c => Ok (JStr (String c EmptyString))
      | None => Raise IndexError
      end
  | JDict _ => Raise KeyError  (* the keys of a parsed object are strings, never -1 *)
  | _ => Raise TypeError
  end.

(** [isinstance(v, list)] *)
Definition is_list (v : json) : bool :=
  match v with JList _ => true | _ => false end.

Definition is_dict (v : json) : bool :=
  match v with JDict _ => true | _ => false end.

(** ** State and exceptions *)

Definition M (S A : Type) : Type := S → result A * S.

Definition ret {S A} (a : A) : M S A := λ s, (Ok a, s).
Definition raise {S A} (e : exn) : M S A := λ s, (Raise e, s).
Definition lift {S A} (r : result A) : M S A := λ s, (r, s).
Definition bind {S A B} (m : M S A) (k : A → M S B) : M S B :=
  λ s, match m s with
       | (Ok a, s') => k a s'
       | (Raise e, s') => (Raise e, s')
       end.
(** [try: m  except Exception as e: h e]; the handler runs outside the
    [try], so what it raises is not caught again. *)
Definition try_except {S A} (m : M S A) (h : exn → M S A) : M S A :=
  λ s, match m s with
       | (Ok a, s') => (Ok a, s')
       | (Raise e, s') => h e s'
       end.

Declare Scope py_scope.
Delimit Scope py_scope with py.
Notation "x <- m ;; k" := (bind m (λ x, k))
  (at level 100, m at next level, right associativity) : py_scope.
Notation "m ;;; k" := (bind m (λ _, k))
  (at level 100, right associativity) : py_scope.
Local Open Scope py_scope.

(** [for x in l: body x] *)
Fixpoint for_each {S A} (l : list A) (body : A → M S unit) : M S unit :=
  match l with
  | [] => ret tt
  | x :: l' => body x ;;; for_each l' body
  end.

(** [list(filter(p, l))] for a predicate that can raise *)
Fixpoint py_filter (p : json → result bool) (l : list json) : result (list json) :=
  match l with
  | [] => Ok []
  | x :: l' =>
      match p x with
      | Raise e => Raise e
      | Ok b =>
          match py_filter p l' with
          | Raise e => Raise e
          | Ok r => Ok (if b then x :: r else r)
          end
      end
  end.

(** ** The extractor: [process_orders_batch] *)

Definition row : Type := list json.

(** The two list objects [all_orders] and [all_items] that the caller
    passes in and [process_orders_batch] appends to.  Every call site passes
    two distinct lists (created at lines 103-104), which is why they are two
    fields here. *)
Record lists : Type := Lists { all_orders : list row; all_items : list row }.

Definition no_rows : lists := Lists [] [].

Definition lists_app (a b : lists) : lists :=
  Lists (all_orders a ++ all_orders b) (all_items a ++ all_items b).

Definition append_order (r : row) : M lists unit :=
  λ st, (Ok tt, Lists (all_orders st ++ [r]) (all_items st)).

Definition append_item (r : row) : M lists unit :=
  λ st, (Ok tt, Lists (all_orders st) (all_items st ++ [r])).

(** [lambda i: i.get('order_status', '') == 'Delivered'] *)
Definition is_delivered (i : json) : result bool :=
  match i with
  | JDict d =>
      Ok (match dict_get d "order_status" (JStr "") with
          | JStr s => bool_decide (s = "Delivered")
          | _ => false
          end)
  | _ => Raise AttributeError
  end.

(** lines 207-209 *)
Definition process_item (order_id : json) (item : json) : M lists unit :=
  is_veg <- lift (py_get item "is_veg" JNull) ;;
  name <- lift (py_get item "name" JNull) ;;
  append_item [order_id; name; is_veg].

(** lines 196-209, the body of [for order in delivered_orders] *)
Definition process_order (order : json) : M lists unit :=
  order_id <- lift (py_get order "order_id" JNull) ;;
  order_total <- lift (py_get order "order_total" JNull) ;;
  restaurant_name <- lift (py_get order "restaurant_name" JNull) ;;
  order_time <- lift (py_get order "order_time" JNull) ;;
  rain_mode <- lift (py_get order "rain_mode" (JBool false)) ;;
  on_time <- lift (py_get order "on_time" (JBool true)) ;;
  append_order [order_id; order_total; restaurant_name; order_time; rain_mode; on_time] ;;;
  order_items <- lift (py_get order "order_items" JNull) ;;
  if truthy order_items then
    items <- lift (py_iter order_items) ;;
    for_each items (process_item order_id)
  else ret tt.

Definition process_orders_batch (orders : json) : M lists unit :=
  elements <- lift (py_iter orders) ;;
  delivered_orders <- lift (py_filter is_delivered elements) ;;
  for_each delivered_orders process_order.

(** ** The network and the user interface *)

(** What the page shows; the interpolated values are kept as arguments. *)
Inductive ui : Type :=
| Error_unable_to_fetch                 (* st.error("Unable to fetch orders") *)
| Info_no_orders                        (* st.info("You have not placed any order, ...") *)
| Status_found (count : json)           (* f"Found {count} orders. Fetching all pages..." *)
| Progress (i pages : Z)                (* progress_bar.progress(i / pages) *)
| Status_fetching (page pages : Z)      (* f"Fetching page {i+1}/{pages}..." *)
| Error_fetching_page (page : Z) (e : exn)  (* st.error(f"Error fetching page {i+1}: {e}") *)
| Status_no_more                        (* status_text.text("No more orders to fetch.") *)
| Warning_no_more                       (* st.warning("No more orders to fetch.") *)
| Text_response                         (* st.text(response.text) *)
| Progress_done                         (* progress_bar.progress(1.0) *)
| Status_all_fetched.                   (* "All orders fetched successfully!" *)

(** What a run does, in the order it does it.  [Get None] is
    [session.get(SWIGGY_ORDER_URL)], [Get (Some c)] the same with
    ['?order_id=' + str(c)] appended; [Sleep ms] is [time.sleep], in
    milliseconds; [FetchPage c] marks a call [fetch_orders_page(session, c)]. *)
Inductive event : Type :=
| Get (cursor : option json)
| Sleep (ms : Z)
| FetchPage (offset_id : json)
| Ui (u : ui).

Definition world : Type := list event.

Definition is_get (e : event) : bool :=
  match e with Get _ => true | _ => false end.

Definition is_fetch_page (e : event) : bool :=
  match e with FetchPage _ => true | _ => false end.

(** How many requests were sent, and how many pages were asked for after
    the first. *)
Definition requests_made (w : world) : nat := length (List.filter is_get w).


(** One answer of the remote service to [session.get]: the call raises
    [requests.exceptions.ConnectionError], or another exception of
    [requests] (a read timeout, too many redirects), or returns a response
    whose [.json()] is [body] ([None]: the body is not JSON and [.json()]
    raises). *)
Inductive reply : Type :=
| ConnectionFails
| RequestFails
| Response (body : option json).

Definition emit (e : event) : M world unit := λ w, (Ok tt, w ++ [e]).
Definition show (u : ui) : M world unit := emit (Ui u).
Definition sleep (ms : Z) : M world unit := emit (Sleep ms).

(** [response.json()] *)
Definition response_json (body : option json) : result json :=
  match body with
  | Some j => Ok j
  | None => Raise JSONDecodeError
  end.

(** [response.json().get('data').get('orders', [])] *)
Definition response_orders (body : option json) : result json :=
  match response_json body with
  | Raise e => Raise e
  | Ok j =>
      match py_get j "data" JNull with
      | Raise e => Raise e
      | Ok data => py_get data "orders" (JList [])
      end
  end.

(** [fin == []] *)
Definition is_empty_list (v : json) : bool :=
  match v with JList [] => true | _ => false end.

(** [isinstance(orders, list) and len(orders) == 0] *)
Definition zero_orders (v : json) : bool :=
  is_list v && match py_len v with Ok n => Nat.eqb n 0 | Raise _ => false end.

(** [orders[-1]['order_id']] *)
Definition last_order_id (orders : json) : result json :=
  match py_last orders with
  | Raise e => Raise e
  | Ok o => py_item o "order_id"
  end.

(** [ceil(n / 10)].  Python divides into a float and rounds up; the true
    division is correctly rounded, so the outcome is the exact ceiling for
    every count below 10 * 2^50. *)
Definition ceil_div10 (n : Z) : Z := (- ((- n) / 10))%Z.

(** [ceil(count/10)] for a parsed [count]; [bool] is a subclass of [int]. *)
Definition py_pages (count : json) : result Z :=
  match count with
  | JNum n => Ok (ceil_div10 n)
  | JBool b => Ok (ceil_div10 (if b then 1 else 0))
  | _ => Raise TypeError
  end.

(** [range(lo, hi)] *)
Definition py_range (lo hi : Z) : list Z :=
  (λ k : nat, (lo + Z.of_nat k)%Z) <$> seq 0 (Z.to_nat (hi - lo)).

Record DataFrame : Type := { columns : list string; data : list row }.

(** [pd.DataFrame()] *)
Definition empty_frame : DataFrame := {| columns := []; data := [] |}.

Definition orders_frame (rows : list row) : DataFrame :=
  {| columns := ["order_id"; "order_total"; "restaurant_name"; "order_time";
                 "rain_mode"; "on_time"];
     data := rows |}.

Definition items_frame (rows : list row) : DataFrame :=
  {| columns := ["order_id"; "name"; "is_veg"]; data := rows |}.

(** The variables of the pagination loop: the page fetched last, the
    cursor, and the two lists. *)
Record loop_state : Type := {
  orders : json;
  offset_id : json;
  collected : lists
}.

Inductive flow : Type :=
| Next (s : loop_state)
| Break (s : loop_state).

(** Where the code before the loop ends: at one of its [return]s, or at
    the [for] with the page count and the loop variables. *)
Inductive entry : Type :=
| Return (r : option (DataFrame * DataFrame))
| Enter (pages : Z) (s : loop_state).

(** [process_orders_batch(orders, all_orders, all_items)] called from the
    paginator; an exception leaves [fetch_swiggy_orders], and the two local
    lists with it. *)
Definition run_batch (page : json) (st : lists) : M world lists :=
  λ w, match process_orders_batch page st with
       | (Ok _, st') => (Ok st', w)
       | (Raise e, _) => (Raise e, w)
       end.

Section Pipeline.

(** The remote service: its answer to the [n]-th request of the run
    (counted from 0), given the cursor in the URL. *)
Variable remote : nat → option json → reply.

Definition session_get (cursor : option json) : M world (option json) :=
  λ w, match remote (requests_made w) cursor with
       | ConnectionFails => (Raise ConnectionError, w ++ [Get cursor])
       | RequestFails => (Raise RequestException, w ++ [Get cursor])
       | Response body => (Ok body, w ++ [Get cursor])
       end.

(** lines 173-188 *)
Definition fetch_orders_page (offset_id : json) : M world json :=
  emit (FetchPage offset_id) ;;;
  try_except
    (response <- session_get (Some offset_id) ;;
     fin <- lift (response_orders response) ;;
     (if is_empty_list fin then show Warning_no_more ;;; show Text_response
      else ret tt) ;;;
     ret fin)
    (λ e,
       match e with
       | ConnectionError =>
           (* Retry once on connection error *)
           sleep 2000 ;;;
           response <- session_get (Some offset_id) ;;
           lift (response_orders response)
       | _ => raise (FetchException e)
       end).

(** lines 136-157, one turn of [for i in range(1, pages)] *)
Definition loop_body (pages i : Z) (s : loop_state) : M world flow :=
  show (Progress i pages) ;;;
  show (Status_fetching (i + 1) pages) ;;;
  fetched <- try_except
               (fin <- fetch_orders_page (offset_id s) ;; ret (Some fin))
               (λ e, show (Error_fetching_page (i + 1) e) ;;; ret None) ;;
  match fetched with
  | None => ret (Break s)
  | Some fin =>
      n <- lift (py_len fin) ;;
      if Nat.eqb n 0 then
        show Status_no_more ;;;
        ret (Break {| orders := fin; offset_id := offset_id s;
                      collected := collected s |})
      else
        st <- run_batch fin (collected s) ;;
        cursor <- lift (last_order_id fin) ;;
        sleep 1500 ;;;
        ret (Next {| orders := fin; offset_id := cursor; collected := st |})
  end.

Fixpoint for_loop (pages : Z) (range : list Z) (s : loop_state) : M world loop_state :=
  match range with
  | [] => ret s
  | i :: range' =>
      f <- loop_body pages i s ;;
      match f with
      | Next s' => for_loop pages range' s'
      | Break s' => ret s'
      end
  end.

(** lines 103-132 *)
Definition first_page : M world entry :=
  response <- session_get None ;;
  j <- lift (response_json response) ;;
  data <- lift (py_get j "data" JNull) ;;
  if negb (truthy data) then
    show Error_unable_to_fetch ;;;
    ret (Return None)
  else
    orders <- lift (py_get data "orders" (JList [])) ;;
    if zero_orders orders then
      show Info_no_orders ;;;
      ret (Return (Some (empty_frame, empty_frame)))
    else
      st <- run_batch orders no_rows ;;
      count <- lift (py_get data "total_orders" (JNum 0)) ;;
      pages <- lift (py_pages count) ;;
      show (Status_found count) ;;;
      offset_id <- lift (last_order_id orders) ;;
      ret (Enter pages {| orders := orders; offset_id := offset_id;
                          collected := st |}).

(** lines 159-171 *)
Definition finish (s : loop_state) : M world (option (DataFrame * DataFrame)) :=
  show Progress_done ;;;
  show Status_all_fetched ;;;
  ret (Some (orders_frame (all_orders (collected s)),
             items_frame (all_items (collected s)))).

(** Step 5 of [fetch_swiggy_orders] (lines 96-171): what the function
    does once the login of steps 1-4 has succeeded. *)
Definition fetch_swiggy_orders : M world (option (DataFrame * DataFrame)) :=
  e <- first_page ;;
  match e with
  | Return r => ret r
  | Enter pages s =>
      s' <- for_loop pages (py_range 1 pages) s ;;
      finish s'
  end.

End Pipeline.

(** ** The extractor as the specification describes it *)

(** "An order whose status field equals Delivered". *)
Definition status_is_delivered (o : json) : bool :=
  match o with
  | JDict d =>
      match d !! "order_status" with
      | Some (JStr s) => bool_decide (s = "Delivered")
      | _ => false
      end
  | _ => false
  end.

(** A field of a record, [None] (here [JNull]) when it is absent. *)
Definition field (o : json) (k : string) : json :=
  match o with
  | JDict d => match d !! k with Some v => v | None => JNull end
  | _ => JNull
  end.

(** A field of a record with the value to substitute when it is absent. *)
Definition field_or (o : json) (k : string) (absent : json) : json :=
  match o with
  | JDict d => match d !! k with Some v => v | None => absent end
  | _ => absent
  end.

(** The Order record of a raw order: rain_mode = false and on_time = true
    when absent. *)
Definition order_record (o : json) : row :=
  [field o "order_id"; field o "order_total"; field o "restaurant_name";
   field o "order_time"; field_or o "rain_mode" (JBool false);
   field_or o "on_time" (JBool true)].

(** The item list of a raw order; an order without one has no items. *)
Definition item_list (o : json) : list json :=
  match o with
  | JDict d => match d !! "order_items" with Some (JList xs) => xs | _ => [] end
  | _ => []
  end.

(** The Item record of an item of order [o]. *)
Definition item_record (o item : json) : row :=
  [field o "order_id"; field item "name"; field item "is_veg"].

Definition delivered (page : list json) : list json :=
  List.filter status_is_delivered page.

Definition order_table (page : list json) : list row :=
  order_record <$> delivered page.

Definition item_table (page : list json) : list row :=
  flat_map (λ o, item_record o <$> item_list o) (delivered page).

(** The number of items of the delivered orders of a page. *)
Definition delivered_items (page : list json) : nat :=
  sum_list (length ∘ item_list <$> delivered page).

(** A page of raw orders: every element is a JSON object, and the
    [order_items] of a delivered one is absent, empty (or otherwise falsy),
    or a list of JSON objects. *)
Definition items_well_formed (o : json) : bool :=
  match o with
  | JDict d =>
      match d !! "order_items" with
      | None => true
      | Some v =>
          negb (truthy v)
          || match v with JList xs => forallb is_dict xs | _ => false end
      end
  | _ => false
  end.

Definition raw_order_ok (o : json) : bool :=
  is_dict o && (negb (status_is_delivered o) || items_well_formed o).

Definition raw_page_ok (page : list json) : bool := forallb raw_order_ok page.

(** What one call of the extractor yields on its own: the outcome and the
    rows, starting from two empty lists. *)
Definition extract (page : json) : result unit * lists :=
  process_orders_batch page no_rows.

(** A computation over the two lists that only appends to them, the same
    rows whatever they held before. *)
Definition appends {A} (m : M lists A) : Prop :=
  ∀ st, m st = ((m no_rows).1, lists_app st (m no_rows).2).

(** The rows one order can add: nothing (the call raised at once), or its
    order row followed by the rows of some of its items. *)
Definition emitted_by (o : json) (before after : lists) : Prop :=
  after = before ∨
  (all_orders after = all_orders before ++ [order_record o] ∧
   ∃ its, all_items after = all_items before ++ (item_record o <$> its) ∧
           ∀ x, x ∈ its → x ∈ item_list o).

(** Every item row belongs to a delivered order of the page whose own row
    is in the orders table. *)
Definition integrity (elements : list json) (st : lists) : Prop :=
  ∀ irow, irow ∈ all_items st →
    ∃ o item, o ∈ elements ∧ status_is_delivered o = true ∧
              item ∈ item_list o ∧ irow = item_record o item ∧
              order_record o ∈ all_orders st.


(** ** The pagination loop as a transition system *)

(** A point of the run at the head of the [for] loop: the values of [i]
    still to come, the pages fetched and processed so far (the first page
    included), the loop variables, and what has happened. *)
Record config : Type := Config {
  remaining : list Z;
  history : list json;
  vars : loop_state;
  trace : world
}.

(** One full turn of the loop, one that neither breaks nor raises: the
    fetch returned [page], which joins the history. *)
Inductive turn (remote : nat → option json → reply) (pages : Z) :
  config → config → Prop :=
| turn_next i range hist s w page wb s1 w1 :
    fetch_orders_page remote (offset_id s)
      (w ++ [Ui (Progress i pages); Ui (Status_fetching (i + 1) pages)])
      = (Ok page, wb) →
    loop_body remote pages i s w = (Ok (Next s1), w1) →
    turn remote pages (Config (i :: range) hist s w)
                      (Config range (hist ++ [page]) s1 w1).

(** [response.json().get('data').get('orders', [])] of the first response
    of a run started in [w]. *)
Definition initial_orders (remote : nat → option json → reply) (w : world) :
    result json :=
  match remote (requests_made w) None with
  | ConnectionFails => Raise ConnectionError
  | RequestFails => Raise RequestException
  | Response body => response_orders body
  end.

(** The run started in [w0] comes to the head of the loop in [c]; the
    history starts with the list of the first response. *)
Definition run_reaches (remote : nat → option json → reply) (w0 : world)
    (pages : Z) (c : config) : Prop :=
  ∃ page s0 w1,
    initial_orders remote w0 = Ok page ∧
    first_page remote w0 = (Ok (Enter pages s0), w1) ∧
    rtc (turn remote pages) (Config (py_range 1 pages) [page] s0 w1) c.

(** The rows of a sequence of pages: those of each page, in order. *)
Definition rows_of (pages : list json) : lists :=
  foldl (λ acc page, lists_app acc (extract page).2) no_rows pages.

(** The [orders] of the first response are a JSON array (when there are any). *)
Definition initial_orders_is_list (remote : nat → option json → reply)
    (w : world) : bool :=
  match initial_orders remote w with
  | Ok v => is_list v
  | Raise _ => true
  end.


(** Events among which no page is asked for. *)
Definition quiet (evs : list event) : bool :=
  forallb (λ e, negb (is_fetch_page e)) evs.

(** [data.get('total_orders', 0)], for the [data] of the first response
    (a dict by the time the count is read). *)
Definition dict_get_total (data : json) : json :=
  match data with
  | JDict d => dict_get d "total_orders" (JNum 0)
  | _ => JNum 0
  end.

(** What holds whenever the run is at the head of the loop. *)
Record config_inv (remote : nat → option json → reply) (w0 : world)
    (pages : Z) (c : config) : Prop := {
  (* the variable [orders] holds the page fetched last *)
  inv_last : last (history c) = Some (orders (vars c));
  (* the cursor is the [order_id] of its last element *)
  inv_cursor : last_order_id (orders (vars c)) = Ok (offset_id (vars c));
  (* the two lists hold the rows of the pages processed so far *)
  inv_rows : collected (vars c) = rows_of (history c);
  inv_pages : Forall (λ page, (extract page).1 = Ok tt) (history c);
  (* the rest of the run is the rest of the loop and the code after it *)
  inv_run : fetch_swiggy_orders remote w0 =
            bind (for_loop remote pages (remaining c) (vars c)) finish (trace c)
}.

(** ** Sample data *)

(** A JSON object from its fields. *)
Definition obj (fields : list (string * json)) : json :=
  JDict (list_to_map fields).

Definition sample_item (name : string) (veg : Z) : json :=
  obj [("name", JStr name); ("is_veg", JNum veg)].

Definition sample_order (id : Z) (status : string) (items : json) : json :=
  obj [("order_id", JNum id); ("order_status", JStr status);
       ("order_total", JNum 250); ("restaurant_name", JStr "Udupi");
       ("order_time", JStr "2024-01-05 13:10:00"); ("order_items", items)].

(** Three orders: a delivered one with two items, a cancelled one, and a
    delivered one without items. *)
Definition sample_page : list json :=
  [sample_order 31 "Delivered" (JList [sample_item "Dosa" 1; sample_item "Vada" 1]);
   sample_order 22 "Cancelled" (JList [sample_item "Idli" 1]);
   sample_order 13 "Delivered" JNull].

Definition sample_page_2 : list json :=
  [sample_order 9 "Delivered" (JList [sample_item "Thali" 1])].

(** A response of the orders endpoint. *)
Definition orders_response (orders : json) (total : Z) : reply :=
  Response (Some (obj [("data", obj [("orders", orders);
                                     ("total_orders", JNum total)])])).

(** A service with 23 orders that answers the first two requests and
    then cannot be reached any more. *)
Definition sample_remote (n : nat) (cursor : option json) : reply :=
  match n with
  | 0 => orders_response (JList sample_page) 23
  | 1 => orders_response (JList sample_page_2) 23
  | _ => ConnectionFails
  end.

(** A service that cannot be reached at all. *)
Definition remote_down (n : nat) (cursor : option json) : reply :=
  ConnectionFails.

(** A service whose requests time out. *)
Definition remote_timeout (n : nat) (cursor : option json) : reply :=
  RequestFails.

(** The service of a user without orders. *)
Definition remote_no_orders (n : nat) (cursor : option json) : reply :=
  orders_response (JList []) 0.

(** A service that sends an empty string where the orders should be. *)
Definition remote_empty_string (n : nat) (cursor : option json) : reply :=
  orders_response (JStr "") 0.

(** The run against [sample_remote] at the head of the loop, before the
    first turn and before the second. *)
Definition sample_head_1 : config :=
  {| remaining := [1; 2]%Z;
     history := [JList sample_page];
     vars := {| orders := JList sample_page;
                offset_id := JNum 13;
                collected := rows_of [JList sample_page] |};
     trace := [Get None; Ui (Status_found (JNum 23))] |}.

Definition sample_head_2 : config :=
  {| remaining := [2]%Z;
     history := [JList sample_page; JList sample_page_2];
     vars := {| orders := JList sample_page_2;
                offset_id := JNum 9;
                collected := rows_of [JList sample_page; JList sample_page_2] |};
     trace := [Get None; Ui (Status_found (JNum 23));
               Ui (Progress 1 3); Ui (Status_fetching 2 3);
               FetchPage (JNum 13); Get (Some (JNum 13)); Sleep 1500] |}.

(** A service that sends an empty object where the orders should be. *)
Definition remote_empty_object (n : nat) (cursor : option json) : reply :=
  orders_response (JDict ∅) 0.

(** ** Further notions *)

(** The shape that [pd.DataFrame(rows, columns=...)] needs: six cells in
    an order row, three in an item row. *)
Definition rows_fit (st : lists) : Prop :=
  Forall (λ r : row, length r = 6) (all_orders st) ∧
  Forall (λ r : row, length r = 3) (all_items st).

(** A frame whose rows all have one cell per column. *)
Definition frame_fits (f : DataFrame) : Prop :=
  Forall (λ r : row, length r = length (columns f)) (data f).

(** A delivered order with five items, the third of which is not an
    object. *)
Definition sample_order_bad_item : json :=
  sample_order 47 "Delivered"
    (JList [sample_item "Poha" 1; sample_item "Upma" 1; JStr "Chai";
            sample_item "Kesari" 1; sample_item "Bonda" 1]).

(** What goes wrong with a fetched page after the fetch, if anything:
    [len(orders)], then [process_orders_batch], then the cursor, in the
    order of lines 146-154.  [None]: the turn ends without an exception. *)
Definition page_defect (st : lists) (fin : json) : option exn :=
  match py_len fin with
  | Raise e => Some e
  | Ok 0 => None
  | Ok (S _) =>
      match process_orders_batch fin st with
      | (Raise e, _) => Some e
      | (Ok _, _) =>
          match last_order_id fin with
          | Raise e => Some e
          | Ok _ => None
          end
      end
  end.

(** A service with 23 orders whose second page has no [orders] (null). *)
Definition remote_null_page (n : nat) (cursor : option json) : reply :=
  match n with
  | 0 => orders_response (JList sample_page) 23
  | _ => orders_response JNull 23
  end.

(** A service with 23 orders whose second page is empty. *)
Definition remote_short (n : nat) (cursor : option json) : reply :=
  match n with
  | 0 => orders_response (JList sample_page) 23
  | _ => orders_response (JList []) 23
  end.

(** A service whose answer has no [data]. *)
Definition remote_no_data (n : nat) (cursor : option json) : reply :=
  Response (Some (obj [("statusCode", JNum 1)])).

(** Reading a trace for the politeness delay.  [pending] says that a page
    has been asked for and the 1.5 s sleep of line 157 has not followed
    yet; the result is [None] when another page is asked for in that
    state. *)
Fixpoint paced (pending : bool) (w : list event) : option bool :=
  match w with
  | [] => Some pending
  | FetchPage _ :: w' => if pending then None else paced true w'
  | Sleep ms :: w' => paced (if Z.eqb ms 1500 then false else pending) w'
  | _ :: w' => paced pending w'
  end.

(** Events that are requests or messages only. *)
Definition silent (evs : list event) : bool :=
  forallb (λ e, match e with Get _ | Ui _ => true | _ => false end) evs.

(** ** Python strings *)

(** [s.split(sep)] for a separator that is not empty (the code splits on
    three literals).  [skip] counts the characters of a separator just
    found that are still to be passed over. *)
Fixpoint py_split_from (sep : string) (skip : nat) (s : string) : list string :=
  match s with
  | EmptyString => [EmptyString]
  | String c s' =>
      match skip with
      | S k => py_split_from sep k s'
      | 0 =>
          if String.prefix sep s then
            EmptyString :: py_split_from sep (String.length sep - 1) s'
          else
            match py_split_from sep 0 s' with
            | piece :: rest => String c piece :: rest
            | [] => [String c EmptyString]
            end
      end
  end.

Definition py_split (sep s : string) : list string := py_split_from sep 0 s.

(** [s.find(sep)], with [None] for -1. *)
Fixpoint py_find (sep s : string) : option nat :=
  if String.prefix sep s then Some 0
  else match s with
       | EmptyString => None
       | String _ s' => S <$> py_find sep s'
       end.

(** [l[i]] *)
Definition py_index {A} (l : list A) (i : nat) : result A :=
  match l !! i with
  | Some x => Ok x
  | None => Raise IndexError
  end.

(** [s[2:-1]] *)
Definition py_slice_2_minus_1 (s : string) : string :=
  String.substring 2 (String.length s - 3) s.

(** Line 38 (and line 75):
    [text.split("csrfToken")[1].split("=")[1].split(";")[0][2:-1]] *)
Definition csrf_token_of (text : string) : result string :=
  match py_index (py_split "csrfToken" text) 1 with
  | Raise e => Raise e
  | Ok after_name =>
      match py_index (py_split "=" after_name) 1 with
      | Raise e => Raise e
      | Ok after_equals =>
          match py_index (py_split ";" after_equals) 0 with
          | Raise e => Raise e
          | Ok quoted => Ok (py_slice_2_minus_1 quoted)
          end
      end
  end.

(** A root page as the code expects it. *)
Definition sample_root_text : string :=
  "<script>window._csrfToken = 'f3a9c1e7';window.x = 1;</script>".

(** ** Steps 1 to 4 of [fetch_swiggy_orders]: logging in (lines 25-100) *)

(** The outcome of a request that the code does not guard: the call raises
    a connection error or another exception of [requests], or returns. *)
Inductive answer (A : Type) : Type :=
| Unreachable
| Broken
| Answer (a : A).
Arguments Unreachable {A}.
Arguments Broken {A}.
Arguments Answer {A} a.

(** What the code reads of a response to [session.get(SWIGGY_URL)]: the
    text, and the [__SW] cookie if there is one. *)
Record root_page : Type := { page_text : string; page_sw_cookie : option string }.

(** What the code reads of a response to [session.post]. *)
Record post_result : Type := { post_text : string; status_code : Z }.

(** The service during one call: the root page at the first and at the
    second [GET]; the answer to the OTP request, given the mobile number,
    the token and the cookie sent; the answer to the verification, given
    the OTP and the token sent. *)
Record site : Type := {
  get_root : nat → answer root_page;
  post_send_otp : string → string → string → answer post_result;
  post_verify_otp : string → string → answer post_result
}.

(** What the widgets return in this run of the script. *)
Record widgets : Type := {
  username : string;      (* st.text_input("Enter your registered mobile number:") *)
  request_otp : bool;     (* st.button("Request OTP") *)
  otp_input : string;     (* st.text_input("Enter the OTP ...", type="password") *)
  verify_otp : bool       (* st.button("Verify OTP") *)
}.

Inductive login_event : Type :=
| GetRoot                                    (* session.get(SWIGGY_URL) *)
| PostSendOtp (mobile csrf cookie : string)  (* session.post(SWIGGY_SEND_OTP_URL, ...) *)
| PostVerifyOtp (otp csrf : string)          (* session.post(SWIGGY_VERIFY_OTP_URL, ...) *)
| Error_no_connection     (* st.error("Unable to establish connection with Swiggy. Login failed") *)
| Error_sending_otp       (* st.error("Error from Swiggy API while sending OTP") *)
| Error_invalid_otp       (* st.error("Invalid OTP or login failed") *)
| Success_logged_in       (* st.success("Logged in successfully!") *)
| Input_username          (* the mobile number field is on the page *)
| Button_request_otp
| Input_otp
| Button_verify_otp
| Progress_bar            (* st.progress(0) *)
| Status_line.            (* st.empty() *)

Definition request {A} (a : answer A) (e : login_event) :
    M (list login_event) A :=
  λ t, match a with
       | Unreachable => (Raise ConnectionError, t ++ [e])
       | Broken => (Raise RequestException, t ++ [e])
       | Answer x => (Ok x, t ++ [e])
       end.

Definition render (e : login_event) : M (list login_event) unit :=
  λ t, (Ok tt, t ++ [e]).

(** [not s] for a string *)
Definition str_falsy (s : string) : bool := bool_decide (s = EmptyString).

(** [not c] for what [dict.get] returns: [None] or a string *)
Definition cookie_falsy (c : option string) : bool :=
  match c with
  | None => true
  | Some s => str_falsy s
  end.

(** Lines 25-100.  [true]: the login went through and the code goes on to
    fetch the orders; [false]: the function has returned [(None, None)]. *)
Definition login (s : site) (inputs : widgets) : M (list login_event) bool :=
  (* Step 1: Establish connection and get CSRF token *)
  establish_connection <- request (get_root s 0) GetRoot ;;
  csrf_token <- lift (csrf_token_of (page_text establish_connection)) ;;
  let sw_cookie := page_sw_cookie establish_connection in
  if str_falsy csrf_token || cookie_falsy sw_cookie then
    render Error_no_connection ;;; ret false
  else
    (* Step 2: Request OTP *)
    render Input_username ;;;
    if str_falsy (username inputs) then ret false
    else
      render Button_request_otp ;;;
      if negb (request_otp inputs) then ret false
      else
        otp_response <-
          request (post_send_otp s (username inputs) csrf_token
                     (default EmptyString sw_cookie))
                  (PostSendOtp (username inputs) csrf_token
                     (default EmptyString sw_cookie)) ;;
        if bool_decide (post_text otp_response = "Invalid Request") then
          render Error_sending_otp ;;; ret false
        else
          (* Step 3: Refresh connection for new CSRF token *)
          re_establish_connection <- request (get_root s 1) GetRoot ;;
          csrf_token <- lift (csrf_token_of (page_text re_establish_connection)) ;;
          (* Step 4: Verify OTP *)
          render Input_otp ;;;
          render Button_verify_otp ;;;
          if negb (verify_otp inputs) || str_falsy (otp_input inputs) then
            ret false
          else
            otp_verify_response <-
              request (post_verify_otp s (otp_input inputs) csrf_token)
                      (PostVerifyOtp (otp_input inputs) csrf_token) ;;
            if bool_decide (post_text otp_verify_response = "Invalid Request")
               || negb (Z.eqb (status_code otp_verify_response) 200) then
              render Error_invalid_otp ;;; ret false
            else
              (* Step 5 begins *)
              render Success_logged_in ;;;
              render Progress_bar ;;;
              render Status_line ;;;
              ret true.

(** What a call of [fetch_swiggy_orders] leaves behind: what happened
    while logging in, and what happened while fetching the orders. *)
Record call_trace : Type := {
  login_trace : list login_event;
  orders_trace : world
}.

(** The whole of [fetch_swiggy_orders] (lines 16-171): the login, and
    after it the paginator [fetch_swiggy_orders] above. *)
Definition fetch_swiggy_orders_call (s : site) (inputs : widgets)
    (remote : nat → option json → reply) :
    result (option (DataFrame * DataFrame)) * call_trace :=
  match login s inputs [] with
  | (Raise e, t) => (Raise e, {| login_trace := t; orders_trace := [] |})
  | (Ok false, t) => (Ok None, {| login_trace := t; orders_trace := [] |})
  | (Ok true, t) =>
      let (r, w) := fetch_swiggy_orders remote [] in
      (r, {| login_trace := t; orders_trace := w |})
  end.

(** A service that lets the user with OTP 4321 in. *)
Definition sample_site : site :=
  {| get_root := λ k,
       Answer {| page_text :=
                   if Nat.eqb k 0 then sample_root_text
                   else "<script>window._csrfToken = '77aa01bc';</script>";
                 page_sw_cookie := Some "sw-5521" |};
     post_send_otp := λ mobile csrf cookie,
       Answer {| post_text := "{}"; status_code := 200 |};
     post_verify_otp := λ otp csrf,
       Answer {| post_text := if bool_decide (otp = "4321") then "{}"
                              else "Invalid Request";
                 status_code := 200 |} |}.

Definition sample_inputs : widgets :=
  {| username := "9876501234"; request_otp := true;
     otp_input := "4321"; verify_otp := true |}.

(** A service that sets no [__SW] cookie. *)
Definition site_without_cookie : site :=
  {| get_root := λ k,
       Answer {| page_text := sample_root_text; page_sw_cookie := None |};
     post_send_otp := λ mobile csrf cookie, Unreachable;
     post_verify_otp := λ otp csrf, Unreachable |}.

(** ** The script around the call (lines 211-266) *)

Inductive app_event : Type :=
| Title                      (* st.title("Swiggy Order History Downloader") *)
| Intro                      (* st.write("This app helps you download ...") *)
| How_it_works               (* the expander with its four steps *)
| Success_data_fetched       (* st.success("Data fetched successfully! ...") *)
| Subheader_orders           (* st.subheader("Sample of your order data") *)
| Subheader_items            (* st.subheader("Sample of your ordered items") *)
| Table (f : DataFrame)      (* st.dataframe(f) *)
| Download (label data file_name mime : string).   (* st.download_button(...) *)

(** [f.empty]: one of the two axes has length zero. *)
Definition frame_empty (f : DataFrame) : bool :=
  match data f, columns f with
  | [], _ => true
  | _, [] => true
  | _, _ => false
  end.

(** [f.head()]: the first five rows. *)
Definition frame_head (f : DataFrame) : DataFrame :=
  {| columns := columns f; data := take 5 (data f) |}.

(** What one run of the script leaves behind: [st.session_state], what
    the page shows, and the trace of the call of [fetch_swiggy_orders] if
    there was one. *)
Record script_run : Type := {
  state_after : gmap string (option DataFrame);
  shown : list app_event;
  call : option call_trace
}.

Section Script.

(** [DataFrame.to_csv(index=False)], which is pandas' and not modelled. *)
Variable to_csv : DataFrame → string.

(** Lines 226-228: both keys are set to [None] unless both are there. *)
Definition init_state (st : gmap string (option DataFrame)) :
    gmap string (option DataFrame) :=
  if bool_decide (is_Some (st !! "orders_df"))
     && bool_decide (is_Some (st !! "items_df"))
  then st
  else <["items_df" := None]> (<["orders_df" := None]> st).

(** Lines 237-266; an attribute that is missing, or [None] where a frame
    is needed, raises [AttributeError] with the page half drawn. *)
Definition display (st : gmap string (option DataFrame)) :
    result unit * list app_event :=
  match st !! "orders_df" with
  | None => (Raise AttributeError, [])
  | Some None => (Ok tt, [])
  | Some (Some orders_df) =>
      if frame_empty orders_df then (Ok tt, [])
      else
        match st !! "items_df" with
        | Some (Some items_df) =>
            (Ok tt,
             [Success_data_fetched;
              Subheader_orders; Table (frame_head orders_df);
              Subheader_items; Table (frame_head items_df);
              Download "Download Orders CSV" (to_csv orders_df)
                       "swiggy_orders.csv" "text/csv";
              Download "Download Items CSV" (to_csv items_df)
                       "swiggy_items.csv" "text/csv"])
        | _ =>
            (Raise AttributeError,
             [Success_data_fetched;
              Subheader_orders; Table (frame_head orders_df);
              Subheader_items])
        end
  end.

(** Lines 211-266: one run of the script, from the session state that the
    run before left. *)
Definition script (s : site) (inputs : widgets)
    (remote : nat → option json → reply)
    (st : gmap string (option DataFrame)) : result unit * script_run :=
  let top := [Title; Intro; How_it_works] in
  let st1 := init_state st in
  match st1 !! "orders_df" with
  | None =>
      (Raise AttributeError, {| state_after := st1; shown := top; call := None |})
  | Some (Some _) =>
      let (r, evs) := display st1 in
      (r, {| state_after := st1; shown := top ++ evs; call := None |})
  | Some None =>
      match fetch_swiggy_orders_call s inputs remote with
      | (Raise e, t) =>
          (Raise e, {| state_after := st1; shown := top; call := Some t |})
      | (Ok None, t) =>
          let (r, evs) := display st1 in
          (r, {| state_after := st1; shown := top ++ evs; call := Some t |})
      | (Ok (Some (orders_df, items_df)), t) =>
          let st2 := <["items_df" := Some items_df]>
                       (<["orders_df" := Some orders_df]> st1) in
          let (r, evs) := display st2 in
          (r, {| state_after := st2; shown := top ++ evs; call := Some t |})
      end
  end.

End Script.

(** A stand-in for the CSV text: the number of rows, in tally marks. *)
Definition tally_csv (f : DataFrame) : string :=
  String.concat EmptyString ((λ _, "|") <$> data f).

(** ** A service that always answers *)



(** ** Lemmas: the monad *)

Lemma bind_ok {S A B} (m : M S A) (k : A → M S B) s a s' :
  m s = (Ok a, s') → bind m k s = k a s'.
Proof. intros E. unfold bind. by rewrite E. Qed.

Lemma bind_raise {S A B} (m : M S A) (k : A → M S B) s e s' :
  m s = (Raise e, s') → bind m k s = (Raise e, s').
Proof. intros E. unfold bind. by rewrite E. Qed.

Lemma bind_inv {S A B} (m : M S A) (k : A → M S B) s r s' :
  bind m k s = (r, s') →
  (∃ a s1, m s = (Ok a, s1) ∧ k a s1 = (r, s')) ∨
  (∃ e, m s = (Raise e, s') ∧ r = Raise e).
Proof.
  unfold bind. destruct (m s) as [[a|e] s1]; intros E.
  - left. eauto.
  - right. inversion E; subst. eauto.
Qed.

(** ** Lemmas: the extractor only appends *)

Lemma lists_app_nil_r st : lists_app st no_rows = st.
Proof. destruct st. unfold lists_app; simpl. by rewrite !app_nil_r. Qed.

Lemma lists_app_nil_l st : lists_app no_rows st = st.
Proof. by destruct st. Qed.

Lemma lists_app_assoc a b c :
  lists_app (lists_app a b) c = lists_app a (lists_app b c).
Proof. unfold lists_app; simpl. by rewrite !app_assoc. Qed.

Lemma appends_ret {A} (a : A) : appends (ret a).
Proof. intros st. unfold ret; simpl. by rewrite lists_app_nil_r. Qed.

Lemma appends_lift {A} (r : result A) : appends (lift r).
Proof. intros st. unfold lift; simpl. by rewrite lists_app_nil_r. Qed.

Lemma appends_append_order r : appends (append_order r).
Proof. intros st. unfold append_order, lists_app; simpl. by rewrite app_nil_r. Qed.

Lemma appends_append_item r : appends (append_item r).
Proof. intros st. unfold append_item, lists_app; simpl. by rewrite app_nil_r. Qed.

Lemma appends_bind {A B} (m : M lists A) (k : A → M lists B) :
  appends m → (∀ a, appends (k a)) → appends (bind m k).
Proof.
  intros Hm Hk st. unfold bind. rewrite (Hm st).
  destruct (m no_rows) as [[a|e] d]; simpl; [|done].
  rewrite (Hk a (lists_app st d)), (Hk a d); simpl.
  by rewrite lists_app_assoc.
Qed.

Lemma appends_for_each {A} (l : list A) (body : A → M lists unit) :
  (∀ x, appends (body x)) → appends (for_each l body).
Proof.
  intros Hb. induction l as [|x l IH]; simpl.
  - apply appends_ret.
  - apply appends_bind; auto.
Qed.

Create HintDb appends_db.
#[local] Hint Resolve appends_ret appends_lift appends_append_order
  appends_append_item appends_for_each : appends_db.

Ltac appends_step :=
  first [ apply appends_bind; [ | intros ? ]
        | match goal with |- appends (if ?b then _ else _) => destruct b end
        | solve [ eauto with appends_db ] ].

Lemma appends_process_item oid item : appends (process_item oid item).
Proof. unfold process_item. repeat appends_step. Qed.

Lemma appends_process_order o : appends (process_order o).
Proof.
  unfold process_order. repeat appends_step.
  apply appends_for_each, appends_process_item.
Qed.

Lemma appends_process_orders_batch page : appends (process_orders_batch page).
Proof.
  unfold process_orders_batch. repeat appends_step.
  apply appends_for_each, appends_process_order.
Qed.

(** ** Lemmas: the extractor on a page of raw orders *)

Lemma field_dict d k : field (JDict d) k = dict_get d k JNull.
Proof. unfold field, dict_get. by destruct (d !! k). Qed.

Lemma field_or_dict d k v : field_or (JDict d) k v = dict_get d k v.
Proof. unfold field_or, dict_get. by destruct (d !! k). Qed.

Lemma is_delivered_dict d :
  is_delivered (JDict d) = Ok (status_is_delivered (JDict d)).
Proof.
  unfold is_delivered, status_is_delivered, dict_get.
  by destruct (d !! "order_status") as [[]|].
Qed.

Lemma is_dict_inv v : is_dict v = true → ∃ d, v = JDict d.
Proof. destruct v; try discriminate. eauto. Qed.

Lemma py_filter_delivered l :
  forallb is_dict l = true → py_filter is_delivered l = Ok (delivered l).
Proof.
  induction l as [|x l IH]; simpl; [done|].
  intros [Hx Hl]%andb_prop. apply is_dict_inv in Hx as [d ->].
  rewrite is_delivered_dict, (IH Hl). unfold delivered; simpl.
  by destruct (status_is_delivered (JDict d)).
Qed.

Lemma process_item_dict oid it st :
  process_item oid (JDict it) st =
  (Ok tt, Lists (all_orders st)
                (all_items st ++ [[oid; field (JDict it) "name";
                                   field (JDict it) "is_veg"]])).
Proof. by rewrite !field_dict. Qed.

Lemma for_each_items_ok o items st :
  forallb is_dict items = true →
  for_each items (process_item (field o "order_id")) st =
  (Ok tt, Lists (all_orders st) (all_items st ++ (item_record o <$> items))).
Proof.
  revert st. induction items as [|x items IH]; intros st; simpl.
  - intros _. unfold ret. destruct st; simpl. by rewrite app_nil_r.
  - intros [Hx Hl]%andb_prop. apply is_dict_inv in Hx as [it ->].
    erewrite bind_ok by apply process_item_dict.
    rewrite (IH _ Hl); simpl. by rewrite <- app_assoc.
Qed.

(** The first half of [process_order]: the order row is appended before
    the items are looked at. *)
Lemma process_order_dict d st :
  process_order (JDict d) st =
  (let st1 := Lists (all_orders st ++ [order_record (JDict d)]) (all_items st) in
   let order_items := dict_get d "order_items" JNull in
   if truthy order_items then
     match py_iter order_items with
     | Ok items => for_each items (process_item (field (JDict d) "order_id")) st1
     | Raise e => (Raise e, st1)
     end
   else (Ok tt, st1)).
Proof.
  unfold process_order, order_record. rewrite !field_dict, !field_or_dict.
  cbn -[truthy py_iter for_each process_item].
  destruct (truthy _); [|done].
  unfold bind at 1, lift at 1. by destruct (py_iter _).
Qed.

Lemma process_order_ok d st :
  items_well_formed (JDict d) = true →
  process_order (JDict d) st =
  (Ok tt, lists_app st (Lists [order_record (JDict d)]
                              (item_record (JDict d) <$> item_list (JDict d)))).
Proof.
  intros Hwf. rewrite process_order_dict.
  unfold items_well_formed, item_list, dict_get in *.
  destruct (d !! "order_items") as [v|]; simpl.
  - destruct (truthy v) eqn:Ht; simpl in Hwf.
    + destruct v; try discriminate. simpl.
      by rewrite (for_each_items_ok (JDict d)).
    + unfold lists_app; simpl.
      destruct v; simpl in *; try discriminate; rewrite ?app_nil_r; try done.
      destruct l; [by rewrite app_nil_r | done].
  - unfold lists_app; simpl. by rewrite app_nil_r.
Qed.

Lemma for_each_orders_ok l st :
  forallb (λ o, is_dict o && items_well_formed o) l = true →
  for_each l process_order st =
  (Ok tt, lists_app st (Lists (order_record <$> l)
                              (flat_map (λ o, item_record o <$> item_list o) l))).
Proof.
  revert st. induction l as [|o l IH]; intros st; simpl.
  - intros _. unfold ret. by rewrite lists_app_nil_r.
  - intros [[Ho Hwf]%andb_prop Hl]%andb_prop.
    apply is_dict_inv in Ho as [d ->].
    erewrite bind_ok by (by apply process_order_ok).
    rewrite (IH _ Hl), lists_app_assoc. unfold lists_app; simpl.
    by rewrite <- ?app_assoc.
Qed.

Lemma raw_page_ok_dicts l : raw_page_ok l = true → forallb is_dict l = true.
Proof.
  unfold raw_page_ok, raw_order_ok. induction l as [|o l IH]; simpl; [done|].
  intros [[-> _]%andb_prop Hl]%andb_prop. auto.
Qed.

Lemma raw_page_ok_delivered l :
  raw_page_ok l = true →
  forallb (λ o, is_dict o && items_well_formed o) (delivered l) = true.
Proof.
  unfold raw_page_ok, raw_order_ok, delivered.
  induction l as [|o l IH]; simpl; [done|].
  intros [[Ho Hwf]%andb_prop Hl]%andb_prop.
  destruct (status_is_delivered o); simpl in *; auto.
  by rewrite Ho, Hwf, IH.
Qed.

(** On a page of raw orders the extractor succeeds and appends the two
    tables of the specification. *)
Lemma process_orders_batch_ok l st :
  raw_page_ok l = true →
  process_orders_batch (JList l) st =
  (Ok tt, lists_app st (Lists (order_table l) (item_table l))).
Proof.
  intros Hwf. unfold process_orders_batch; simpl.
  unfold bind at 1, lift at 1.
  unfold bind at 1, lift at 1.
  rewrite (py_filter_delivered _ (raw_page_ok_dicts _ Hwf)).
  by rewrite (for_each_orders_ok _ _ (raw_page_ok_delivered _ Hwf)).
Qed.

Lemma length_item_table l : length (item_table l) = delivered_items l.
Proof.
  unfold item_table, delivered_items.
  induction (delivered l) as [|o k IH]; simpl; [done|].
  by rewrite length_app, length_fmap, IH.
Qed.

(** ** Lemmas: where the item rows come from, on any input *)

Lemma process_item_not_dict oid x st :
  is_dict x = false → process_item oid x st = (Raise AttributeError, st).
Proof. by destruct x. Qed.

Lemma for_each_items_inv oid items st r st' :
  for_each items (process_item oid) st = (r, st') →
  all_orders st' = all_orders st ∧
  ∃ its,
    all_items st' =
      all_items st ++ ((λ it, [oid; field it "name"; field it "is_veg"]) <$> its) ∧
    ∀ x, x ∈ its → x ∈ items ∧ is_dict x = true.
Proof.
  revert st. induction items as [|x items IH]; intros st; simpl.
  - intros [= <- <-]. split; [done|]. exists []. simpl.
    split; [by rewrite app_nil_r|]. by intros x ?%elem_of_nil.
  - destruct (is_dict x) eqn:Hx.
    + apply is_dict_inv in Hx as [it ->].
      erewrite bind_ok by apply process_item_dict.
      intros (Ho & its & Hi & Hd)%IH. simpl in *. split; [done|].
      exists (JDict it :: its). split.
      * rewrite Hi, <- app_assoc. done.
      * intros y [->|Hy]%elem_of_cons.
        -- split; [left|done].
        -- destruct (Hd y Hy). split; [by right|done].
    + erewrite bind_raise by (by apply process_item_not_dict).
      intros [= <- <-]. split; [done|]. exists []. simpl.
      split; [by rewrite app_nil_r|]. by intros y ?%elem_of_nil.
Qed.

(** Only a list can hand a JSON object to a loop: the characters of a
    string and the keys of a dict are strings. *)
Lemma py_iter_dict_elem v items x :
  py_iter v = Ok items → x ∈ items → is_dict x = true → v = JList items.
Proof.
  destruct v; simpl; try discriminate; intros [= <-] Hx Hd.
  - apply list_elem_of_fmap in Hx as (c & -> & _). discriminate.
  - done.
  - apply list_elem_of_fmap in Hx as (c & -> & _). discriminate.
Qed.

Lemma process_order_not_dict o st :
  is_dict o = false → process_order o st = (Raise AttributeError, st).
Proof. by destruct o. Qed.

Lemma process_order_inv o st r st' :
  process_order o st = (r, st') → emitted_by o st st'.
Proof.
  destruct (is_dict o) eqn:Ho.
  2:{ rewrite process_order_not_dict; [|done]. intros [= <- <-]. by left. }
  apply is_dict_inv in Ho as [d ->]. rewrite process_order_dict. simpl.
  set (st1 := Lists _ _).
  assert (Hnone : emitted_by (JDict d) st st1).
  { right. split; [done|]. exists []. simpl. split; [by rewrite app_nil_r|].
    by intros x ?%elem_of_nil. }
  destruct (truthy _) eqn:Ht; [|by intros [= <- <-]].
  destruct (py_iter _) as [items|e] eqn:Hit; [|by intros [= <- <-]].
  intros (Ho & its & Hi & Hd)%for_each_items_inv.
  right. split; [done|]. exists its. split; [done|].
  intros x Hx. destruct (Hd x Hx) as [Hin Hdict].
  pose proof (py_iter_dict_elem _ _ _ Hit Hin Hdict) as Hv.
  unfold item_list, dict_get in *.
  destruct (d !! "order_items") as [v|]; simpl in *; [|discriminate].
  by subst v.
Qed.

Lemma integrity_step elements o st st' :
  integrity elements st → o ∈ elements → status_is_delivered o = true →
  emitted_by o st st' → integrity elements st'.
Proof.
  intros Hst Ho Hd [->|(Horows & its & Hirows & Hdone)]; [done|].
  intros irow. rewrite Hirows, Horows.
  intros [Hold|Hnew]%elem_of_app.
  - destruct (Hst irow Hold) as (o' & item & ? & ? & ? & ? & ?).
    exists o', item. repeat split; try done. apply elem_of_app. by left.
  - apply list_elem_of_fmap in Hnew as (item & -> & Hitem).
    exists o, item. repeat split; auto.
    apply elem_of_app. right. by apply list_elem_of_singleton.
Qed.

Lemma for_each_orders_integrity elements l st r st' :
  (∀ o, o ∈ l → o ∈ elements ∧ status_is_delivered o = true) →
  integrity elements st →
  for_each l process_order st = (r, st') → integrity elements st'.
Proof.
  revert st. induction l as [|o l IH]; intros st Hl Hst; simpl.
  - by intros [= <- <-].
  - destruct (Hl o) as [Ho Hd]; [by left|].
    intros [(a & st1 & E1 & E2)|(e & E1 & _)]%bind_inv.
    + eapply (IH st1); [|eapply integrity_step; eauto using process_order_inv|done].
      intros o' Ho'. apply Hl. by right.
    + eapply integrity_step; eauto using process_order_inv.
Qed.

Lemma py_filter_delivered_inv l r :
  py_filter is_delivered l = Ok r →
  ∀ o, o ∈ r → o ∈ l ∧ status_is_delivered o = true.
Proof.
  revert r. induction l as [|x l IH]; intros r; simpl.
  - intros [= <-] o ?%elem_of_nil. done.
  - destruct (is_delivered x) as [b|] eqn:Hx; [|discriminate].
    destruct (py_filter is_delivered l) as [r'|]; [|discriminate].
    intros [= <-] o Ho.
    assert (Hb : b = status_is_delivered x).
    { destruct x; try discriminate. rewrite is_delivered_dict in Hx. congruence. }
    destruct b.
    + apply elem_of_cons in Ho as [->|Ho]; [split; [by left|done]|].
      destruct (IH r' eq_refl o Ho). split; [by right|done].
    + destruct (IH r' eq_refl o Ho). split; [by right|done].
Qed.

Lemma process_orders_batch_integrity page elements r st :
  py_iter page = Ok elements →
  process_orders_batch page no_rows = (r, st) → integrity elements st.
Proof.
  intros Hit. unfold process_orders_batch.
  unfold bind at 1, lift at 1. rewrite Hit.
  unfold bind at 1, lift at 1.
  destruct (py_filter is_delivered elements) as [dl|e] eqn:Hf.
  - apply for_each_orders_integrity; [by apply py_filter_delivered_inv|].
    by intros irow ?%elem_of_nil.
  - intros [= <- <-]. by intros irow ?%elem_of_nil.
Qed.

Lemma process_orders_batch_not_iterable page e st :
  py_iter page = Raise e → process_orders_batch page st = (Raise e, st).
Proof. intros Hit. unfold process_orders_batch, bind, lift. by rewrite Hit. Qed.

(** ** Lemmas: traces *)


Lemma requests_made_app w1 w2 :
  requests_made (w1 ++ w2) = requests_made w1 + requests_made w2.
Proof. unfold requests_made. by rewrite List.filter_app, length_app. Qed.


Lemma session_get_eq remote cursor w :
  session_get remote cursor w =
  (match remote (requests_made w) cursor with
   | ConnectionFails => Raise ConnectionError
   | RequestFails => Raise RequestException
   | Response body => Ok body
   end, w ++ [Get cursor]).
Proof. unfold session_get. by destruct (remote _ _). Qed.

Lemma response_orders_not_connection body :
  response_orders body ≠ Raise ConnectionError.
Proof.
  unfold response_orders, response_json, py_get.
  destruct body as [[]|]; try done.
  destruct (dict_get _ _ _); done.
Qed.

(** ** Lemmas: one page fetch, case by case *)

(** The first request is answered and the answer holds a value for
    [orders]. *)
Lemma fetch_orders_page_ok remote c w body fin :
  remote (requests_made w) (Some c) = Response body →
  response_orders body = Ok fin →
  fetch_orders_page remote c w =
  (Ok fin, w ++ [FetchPage c; Get (Some c)]
             ++ (if is_empty_list fin then [Ui Warning_no_more; Ui Text_response]
                 else [])).
Proof.
  intros Hr Hb. unfold fetch_orders_page, bind, try_except, emit, lift.
  rewrite session_get_eq, requests_made_app; simpl. rewrite Nat.add_0_r, Hr, Hb.
  destruct (is_empty_list fin); simpl; unfold show, emit, ret; simpl;
    by rewrite <- ?app_assoc.
Qed.

(** The first request is answered, and the answer is not what the code
    expects: the exception is wrapped. *)
Lemma fetch_orders_page_malformed remote c w body e :
  remote (requests_made w) (Some c) = Response body →
  response_orders body = Raise e →
  fetch_orders_page remote c w =
  (Raise (FetchException e), w ++ [FetchPage c; Get (Some c)]).
Proof.
  intros Hr Hb. pose proof (response_orders_not_connection body) as Hne.
  unfold fetch_orders_page, bind, try_except, emit, lift.
  rewrite session_get_eq, requests_made_app; simpl. rewrite Nat.add_0_r, Hr, Hb.
  rewrite Hb in Hne. unfold raise.
  destruct e; by rewrite <- ?app_assoc.
Qed.

(** The first request fails, not with a connection error: wrapped too. *)
Lemma fetch_orders_page_request_fails remote c w :
  remote (requests_made w) (Some c) = RequestFails →
  fetch_orders_page remote c w =
  (Raise (FetchException RequestException), w ++ [FetchPage c; Get (Some c)]).
Proof.
  intros Hr. unfold fetch_orders_page, bind, try_except, emit, lift.
  rewrite session_get_eq, requests_made_app; simpl. rewrite Nat.add_0_r, Hr.
  unfold raise. by rewrite <- ?app_assoc.
Qed.

(** The first request fails with a connection error: two seconds of sleep,
    one more request, and whatever that one gives, as it is. *)
Lemma fetch_orders_page_retry remote c w :
  remote (requests_made w) (Some c) = ConnectionFails →
  fetch_orders_page remote c w =
  (match remote (S (requests_made w)) (Some c) with
   | ConnectionFails => Raise ConnectionError
   | RequestFails => Raise RequestException
   | Response body => response_orders body
   end,
   w ++ [FetchPage c; Get (Some c); Sleep 2000; Get (Some c)]).
Proof.
  intros Hr. unfold fetch_orders_page, bind, try_except, emit, lift.
  rewrite session_get_eq, requests_made_app; simpl. rewrite Nat.add_0_r, Hr.
  unfold sleep, emit. rewrite session_get_eq, !requests_made_app; simpl.
  rewrite Nat.add_0_r, Nat.add_1_r, <- !app_assoc; simpl.
  change (requests_made [FetchPage c]) with 0. rewrite Nat.add_0_r.
  by destruct (remote (S (requests_made w)) (Some c)).
Qed.

Lemma fetch_orders_page_trace remote c w r w' :
  fetch_orders_page remote c w = (r, w') →
  ∃ evs, w' = w ++ FetchPage c :: evs ∧ quiet evs = true.
Proof.
  destruct (remote (requests_made w) (Some c)) as [| |body] eqn:Hr.
  - rewrite (fetch_orders_page_retry _ _ _ Hr). intros [= <- <-]. by eexists.
  - rewrite (fetch_orders_page_request_fails _ _ _ Hr). intros [= <- <-].
    by eexists.
  - destruct (response_orders body) as [fin|e] eqn:Hb.
    + rewrite (fetch_orders_page_ok _ _ _ _ _ Hr Hb). intros [= <- <-].
      destruct (is_empty_list fin); by eexists.
    + rewrite (fetch_orders_page_malformed _ _ _ _ _ Hr Hb). intros [= <- <-].
      by eexists.
Qed.

(** ** Lemmas: one turn of the loop, and the code before the loop *)

(** [loop_body] with the monad unfolded. *)
Lemma loop_body_eq remote pages i s w :
  loop_body remote pages i s w =
  match fetch_orders_page remote (offset_id s)
          (w ++ [Ui (Progress i pages); Ui (Status_fetching (i + 1) pages)]) with
  | (Raise e, wb) => (Ok (Break s), wb ++ [Ui (Error_fetching_page (i + 1) e)])
  | (Ok fin, wb) =>
      match py_len fin with
      | Raise e => (Raise e, wb)
      | Ok n =>
          if Nat.eqb n 0 then
            (Ok (Break {| orders := fin; offset_id := offset_id s;
                          collected := collected s |}),
             wb ++ [Ui Status_no_more])
          else
            match process_orders_batch fin (collected s) with
            | (Raise e, _) => (Raise e, wb)
            | (Ok _, st) =>
                match last_order_id fin with
                | Raise e => (Raise e, wb)
                | Ok c =>
                    (Ok (Next {| orders := fin; offset_id := c; collected := st |}),
                     wb ++ [Sleep 1500])
                end
            end
      end
  end.
Proof.
  unfold loop_body, bind, try_except, show, sleep, emit, lift, ret, run_batch.
  rewrite <- app_assoc; simpl.
  destruct (fetch_orders_page _ _ _) as [[fin|e] wb]; [|done].
  destruct (py_len fin) as [n|]; [|done].
  destruct (Nat.eqb n 0); [done|].
  destruct (process_orders_batch _ _) as [[|] st]; [|done].
  by destruct (last_order_id fin).
Qed.

(** [first_page] with the monad unfolded. *)
Lemma first_page_eq remote w :
  first_page remote w =
  let w1 := w ++ [Get None] in
  match remote (requests_made w) None with
  | ConnectionFails => (Raise ConnectionError, w1)
  | RequestFails => (Raise RequestException, w1)
  | Response body =>
      match response_json body with
      | Raise e => (Raise e, w1)
      | Ok j =>
          match py_get j "data" JNull with
          | Raise e => (Raise e, w1)
          | Ok data =>
              if negb (truthy data) then
                (Ok (Return None), w1 ++ [Ui Error_unable_to_fetch])
              else
                match py_get data "orders" (JList []) with
                | Raise e => (Raise e, w1)
                | Ok orders =>
                    if zero_orders orders then
                      (Ok (Return (Some (empty_frame, empty_frame))),
                       w1 ++ [Ui Info_no_orders])
                    else
                      match process_orders_batch orders no_rows with
                      | (Raise e, _) => (Raise e, w1)
                      | (Ok _, st) =>
                          match py_pages (dict_get_total data) with
                          | Raise e => (Raise e, w1)
                          | Ok pages =>
                              let w2 := w1 ++ [Ui (Status_found (dict_get_total data))] in
                              match last_order_id orders with
                              | Raise e => (Raise e, w2)
                              | Ok c =>
                                  (Ok (Enter pages {| orders := orders;
                                                      offset_id := c;
                                                      collected := st |}), w2)
                              end
                          end
                      end
                end
          end
      end
  end.
Proof.
  unfold first_page, bind, show, emit, lift, ret, run_batch.
  rewrite session_get_eq.
  destruct (remote _ _) as [| |body]; try done.
  destruct (response_json body) as [j|]; [|done].
  destruct (py_get j _ _) as [data|]; [|done].
  destruct (truthy data); simpl; [|done].
  destruct (py_get data "orders" _) as [os|] eqn:Hos; [|done].
  destruct (zero_orders os); [done|].
  destruct (process_orders_batch _ _) as [[|] st]; [|done].
  unfold dict_get_total.
  destruct data; try discriminate. simpl.
  destruct (py_pages _); [|done]. by destruct (last_order_id os).
Qed.










Lemma finish_eq s w :
  finish s w =
  (Ok (Some (orders_frame (all_orders (collected s)),
             items_frame (all_items (collected s)))),
   w ++ [Ui Progress_done; Ui Status_all_fetched]).
Proof. unfold finish, bind, show, emit, ret. by rewrite <- app_assoc. Qed.



(** ** Lemmas: what holds at the head of the loop *)

Lemma process_orders_batch_extract page st u st' :
  process_orders_batch page st = (Ok u, st') →
  (extract page).1 = Ok tt ∧ st' = lists_app st (extract page).2.
Proof.
  rewrite (appends_process_orders_batch page st). fold (extract page).
  destruct u. by intros [= -> <-].
Qed.

Lemma last_order_id_ok v c :
  last_order_id v = Ok c →
  ∃ l o, v = JList l ∧ last l = Some (JDict o) ∧ o !! "order_id" = Some c.
Proof.
  unfold last_order_id, py_last, py_item. intros E.
  repeat case_match; simplify_eq. eauto.
Qed.

Lemma loop_body_next_inv remote pages i s w s1 w1 :
  loop_body remote pages i s w = (Ok (Next s1), w1) →
  ∃ wb n,
    fetch_orders_page remote (offset_id s)
      (w ++ [Ui (Progress i pages); Ui (Status_fetching (i + 1) pages)])
      = (Ok (orders s1), wb) ∧
    py_len (orders s1) = Ok (S n) ∧
    process_orders_batch (orders s1) (collected s) = (Ok tt, collected s1) ∧
    last_order_id (orders s1) = Ok (offset_id s1) ∧
    w1 = wb ++ [Sleep 1500].
Proof.
  rewrite loop_body_eq.
  destruct (fetch_orders_page _ _ _) as [[fin|e] wb]; [|done].
  destruct (py_len fin) as [[|n]|] eqn:Hn; simpl; try done.
  destruct (process_orders_batch _ _) as [[[]|] st] eqn:Hp; [|done].
  destruct (last_order_id fin) as [c|] eqn:Hc; [|done].
  intros [= <- <-]. exists wb, n. simpl. by rewrite Hp.
Qed.

Lemma first_page_enter_inv remote w pages s w1 :
  first_page remote w = (Ok (Enter pages s), w1) →
  initial_orders remote w = Ok (orders s) ∧
  zero_orders (orders s) = false ∧
  process_orders_batch (orders s) no_rows = (Ok tt, collected s) ∧
  last_order_id (orders s) = Ok (offset_id s).
Proof.
  unfold initial_orders, response_orders. rewrite first_page_eq. cbv zeta.
  intros E. repeat case_match; simplify_eq. simpl.
  match goal with H : process_orders_batch _ _ = (Ok ?u, _) |- _ => destruct u end.
  done.
Qed.

Lemma rows_of_snoc hist page :
  rows_of (hist ++ [page]) = lists_app (rows_of hist) (extract page).2.
Proof. unfold rows_of. by rewrite foldl_snoc. Qed.

Lemma run_reaches_inv remote w0 pages c :
  run_reaches remote w0 pages c → config_inv remote w0 pages c.
Proof.
  intros (page0 & s0 & w1 & Hinit & Hfirst & Hrtc). revert c Hrtc.
  apply rtc_ind_r.
  - pose proof (first_page_enter_inv _ _ _ _ _ Hfirst) as (Hi & _ & Hp & Hc).
    rewrite Hinit in Hi. injection Hi as ->.
    apply process_orders_batch_extract in Hp as [Hok Hrows].
    split; simpl.
    + done.
    + done.
    + by rewrite Hrows.
    + by constructor.
    + unfold fetch_swiggy_orders. by erewrite bind_ok; [|done].
  - intros c1 c2 _ Hturn [Hl Hcur Hrows Hpages Hrun].
    destruct Hturn as [i range hist s w page wb' s1 w2 Hfetch Hbody]. simpl in *.
    pose proof (loop_body_next_inv _ _ _ _ _ _ _ Hbody)
      as (wb & n & Hf & _ & Hp & Hc & _).
    rewrite Hfetch in Hf. injection Hf as -> ->.
    apply process_orders_batch_extract in Hp as [Hok Hrows1].
    split; simpl.
    + apply last_snoc.
    + done.
    + by rewrite rows_of_snoc, <- Hrows.
    + apply Forall_app. split; [done|]. by constructor.
    + rewrite Hrun. unfold bind at 1 3. simpl. unfold bind at 1.
      by rewrite Hbody.
Qed.

(** ** Lemmas: which exceptions the extractor and the cursor can raise *)

Lemma process_item_raises oid x st e st' :
  process_item oid x st = (Raise e, st') → e = AttributeError.
Proof.
  destruct (is_dict x) eqn:Hx.
  - apply is_dict_inv in Hx as [it ->]. by rewrite process_item_dict.
  - rewrite process_item_not_dict; [|done]. by intros [= <- _].
Qed.

Lemma for_each_raises {S A} (P : exn → Prop) (l : list A) (body : A → M S unit) :
  (∀ x st e st', body x st = (Raise e, st') → P e) →
  ∀ st e st', for_each l body st = (Raise e, st') → P e.
Proof.
  intros Hbody. induction l as [|x l IH]; intros st e st'; simpl; [done|].
  intros [(u & st1 & E1 & E2)|(e' & E1 & [= <-])]%bind_inv; eauto.
Qed.

Lemma process_order_raises o st e st' :
  process_order o st = (Raise e, st') → e = TypeError ∨ e = AttributeError.
Proof.
  destruct (is_dict o) eqn:Ho.
  2:{ rewrite process_order_not_dict; [|done]. intros [= <- _]. by right. }
  apply is_dict_inv in Ho as [d ->]. rewrite process_order_dict. cbv zeta.
  destruct (truthy _); [|done].
  destruct (py_iter _) as [items|e'] eqn:Hit.
  - intros E. right. revert E.
    apply (for_each_raises (λ e, e = AttributeError)).
    intros x st1 e1 st2. apply process_item_raises.
  - intros [= <- _]. left.
    destruct (dict_get d "order_items" JNull); simpl in Hit; congruence.
Qed.

Lemma py_filter_delivered_raises l e :
  py_filter is_delivered l = Raise e → e = AttributeError.
Proof.
  induction l as [|x l IH]; simpl; [done|].
  destruct (is_delivered x) as [b|e'] eqn:Hx.
  - destruct (py_filter is_delivered l); [done|]. intros [= <-]. by apply IH.
  - intros [= <-]. destruct x; simpl in Hx; congruence.
Qed.

Lemma process_orders_batch_raises page st e st' :
  process_orders_batch page st = (Raise e, st') →
  e = TypeError ∨ e = AttributeError.
Proof.
  unfold process_orders_batch.
  intros [(els & st1 & E1 & E2)|(e' & E1 & [= <-])]%bind_inv.
  - apply bind_inv in E2 as [(dl & st2 & E2 & E3)|(e' & E2 & [= <-])].
    + revert E3.
      apply (for_each_raises (λ e, e = TypeError ∨ e = AttributeError)).
      apply process_order_raises.
    + right. unfold lift in E2. injection E2 as E2 _.
      by apply py_filter_delivered_raises in E2.
  - left. unfold lift in E1. injection E1 as E1 _.
    destruct page; simpl in E1; congruence.
Qed.

(** [orders[-1]] on something that is not empty does not raise
    [IndexError]. *)
Lemma last_order_id_no_index_error v n :
  py_len v = Ok (S n) → last_order_id v ≠ Raise IndexError.
Proof.
  unfold last_order_id, py_last, py_len, py_item.
  destruct v as [| | |s|l|d]; try done.
  - destruct s as [|c s]; [done|]. intros _. simpl.
    destruct (last _) eqn:Hl; [done|]. by apply last_None in Hl.
  - intros [= Hlen]. destruct (last l) as [x|] eqn:Hl.
    + destruct x; try done. by destruct (_ !! _).
    + apply last_None in Hl. by subst l.
Qed.

Lemma loop_body_no_index_error remote pages i s w r w' :
  loop_body remote pages i s w = (r, w') → r ≠ Raise IndexError.
Proof.
  rewrite loop_body_eq.
  destruct (fetch_orders_page _ _ _) as [[fin|e] wb]; [|by intros [= <- _]].
  destruct (py_len fin) as [[|n]|e] eqn:Hn; simpl.
  - by intros [= <- _].
  - destruct (process_orders_batch _ _) as [[u|e] st] eqn:Hp.
    + pose proof (last_order_id_no_index_error _ _ Hn) as Hne.
      destruct (last_order_id fin); intros [= <- _]; congruence.
    + apply process_orders_batch_raises in Hp.
      intros [= <- _]. destruct Hp; congruence.
  - intros [= <- _]. destruct fin; simpl in Hn; congruence.
Qed.

Lemma for_loop_no_index_error remote pages range s w r w' :
  for_loop remote pages range s w = (r, w') → r ≠ Raise IndexError.
Proof.
  revert s w. induction range as [|i range IH]; intros s w; simpl.
  - by intros [= <- _].
  - intros [(f & w1 & E1 & E2)|(e & E1 & ->)]%bind_inv.
    + destruct f; [eauto|]. by injection E2 as <- _.
    + apply loop_body_no_index_error in E1. intros [= ->]. by apply E1.
Qed.

Lemma zero_orders_false_list l :
  zero_orders (JList l) = false → ∃ n, py_len (JList l) = Ok (S n).
Proof. destruct l; [done|]. simpl. eauto. Qed.

Lemma first_page_no_index_error remote w r w' :
  initial_orders_is_list remote w = true →
  first_page remote w = (r, w') → r ≠ Raise IndexError.
Proof.
  unfold initial_orders_is_list, initial_orders, response_orders.
  rewrite first_page_eq. cbv zeta.
  destruct (remote _ _) as [| |body]; try by intros _ [= <- _].
  destruct body as [j|]; simpl; [|by intros _ [= <- _]].
  destruct j as [| | | | |top]; simpl; try by intros _ [= <- _].
  destruct (truthy _); simpl; [|by intros _ [= <- _]].
  destruct (dict_get top "data" JNull) as [| | | | |data]; simpl;
    try by intros _ [= <- _].
  intros Hlist. destruct (dict_get data "orders" _) as [| | | |l|];
    try discriminate.
  destruct (zero_orders _) eqn:Hz; [by intros [= <- _]|].
  apply zero_orders_false_list in Hz as [n Hn].
  destruct (process_orders_batch _ _) as [[u|e] st] eqn:Hp.
  - destruct (py_pages _) as [p|e] eqn:Hpg.
    + pose proof (last_order_id_no_index_error _ _ Hn) as Hne.
      destruct (last_order_id _); intros [= <- _]; congruence.
    + intros [= <- _]. unfold py_pages in Hpg. repeat case_match; congruence.
  - apply process_orders_batch_raises in Hp.
    intros [= <- _]. destruct Hp; congruence.
Qed.

Lemma fetch_swiggy_orders_no_index_error remote w r w' :
  initial_orders_is_list remote w = true →
  fetch_swiggy_orders remote w = (r, w') → r ≠ Raise IndexError.
Proof.
  intros Hlist. unfold fetch_swiggy_orders.
  intros [(en & w1 & E1 & E2)|(e & E1 & ->)]%bind_inv.
  - destruct en as [res|pages s]; [by injection E2 as <- _|].
    apply bind_inv in E2 as [(s' & w2 & E3 & E4)|(e & E3 & ->)].
    + rewrite finish_eq in E4. by injection E4 as <- _.
    + apply for_loop_no_index_error in E3. intros [= ->]. by apply E3.
  - apply (first_page_no_index_error _ _ _ _ Hlist) in E1.
    intros [= ->]. by apply E1.
Qed.

(** ** The sample run *)

Lemma sample_run_reaches_1 : run_reaches sample_remote [] 3 sample_head_1.
Proof.
  exists (JList sample_page), (vars sample_head_1), (trace sample_head_1).
  split; [by vm_compute|]. split; [by vm_compute|]. apply rtc_refl.
Qed.

Lemma sample_run_reaches_2 : run_reaches sample_remote [] 3 sample_head_2.
Proof.
  exists (JList sample_page), (vars sample_head_1), (trace sample_head_1).
  split; [by vm_compute|]. split; [by vm_compute|].
  apply rtc_once.
  eapply (turn_next sample_remote 3 1 [2%Z] [JList sample_page]
            (vars sample_head_1) (trace sample_head_1) (JList sample_page_2)).
  - vm_compute. reflexivity.
  - vm_compute. reflexivity.
Qed.

(** * The properties of the specification *)

(** ** The extractor *)

Lemma delivered_sublist page : delivered page `sublist_of` page.
Proof.
  unfold delivered. induction page as [|o page IH]; simpl; [done|].
  destruct (status_is_delivered o); by constructor.
Qed.

(** C1. On a page of [N] raw orders of which [k] are delivered, the
    extractor succeeds and adds exactly [k] order rows and as many item
    rows as the item lists of those [k] orders have elements together (a
    delivered order without items adds none). *)
Theorem process_orders_batch_counts (page : list json) (st : lists) :
  raw_page_ok page = true →
  ∃ st',
    process_orders_batch (JList page) st = (Ok tt, st') ∧
    length (delivered page) ≤ length page ∧
    length (all_orders st') = length (all_orders st) + length (delivered page) ∧
    length (all_items st') = length (all_items st) + delivered_items page.
Proof.
  intros Hwf. eexists. split; [by apply process_orders_batch_ok|].
  split; [apply sublist_length, delivered_sublist|].
  unfold lists_app, order_table; simpl.
  by rewrite !length_app, length_fmap, length_item_table.
Qed.

Lemma process_orders_batch_counts_sample :
  ∃ st',
    process_orders_batch (JList sample_page) no_rows = (Ok tt, st') ∧
    length (delivered sample_page) ≤ length sample_page ∧
    length (all_orders st') = 0 + length (delivered sample_page) ∧
    length (all_items st') = 0 + delivered_items sample_page.
Proof.
  apply (process_orders_batch_counts sample_page no_rows).
  vm_compute. reflexivity.
Defined.

(** C7. The extractor keeps the orders whose status is "Delivered" and
    only those, fills in rain_mode = false and on_time = true where the
    field is absent ([order_record]), and appends the order rows and the
    flattened item rows in the order of the input. *)
Theorem process_orders_batch_rows (page : list json) (st : lists) :
  raw_page_ok page = true →
  delivered page `sublist_of` page ∧
  process_orders_batch (JList page) st =
  (Ok tt,
   Lists (all_orders st ++ (order_record <$> delivered page))
         (all_items st
            ++ flat_map (λ o, item_record o <$> item_list o) (delivered page))).
Proof.
  intros Hwf. split; [apply delivered_sublist|].
  by rewrite process_orders_batch_ok.
Qed.

Lemma process_orders_batch_rows_sample :
  delivered sample_page `sublist_of` sample_page ∧
  process_orders_batch (JList sample_page) no_rows =
  (Ok tt,
   Lists ([] ++ (order_record <$> delivered sample_page))
         ([] ++ flat_map (λ o, item_record o <$> item_list o)
                         (delivered sample_page))).
Proof.
  apply (process_orders_batch_rows sample_page no_rows).
  vm_compute. reflexivity.
Defined.

(** C8. What a call of the extractor does is a function of the page
    alone: its outcome and the rows it appends are those of [extract page],
    whatever the two lists held before, so two calls on the same page add
    the same rows. *)
Theorem process_orders_batch_pure (page : json) (st : lists) :
  process_orders_batch page st =
  ((extract page).1, lists_app st (extract page).2).
Proof. apply appends_process_orders_batch. Qed.

(** C9. Every item row that the extractor emits is the row of an item of
    a delivered order of the page, it carries the order_id of that order,
    and the row of that order is in the orders table: an order_id in the
    items table is an order_id in the orders table. *)
Theorem item_rows_reference_orders (page : json) (r : result unit) (st : lists)
    (irow : row) :
  extract page = (r, st) →
  irow ∈ all_items st →
  ∃ elements o item,
    py_iter page = Ok elements ∧ o ∈ elements ∧
    status_is_delivered o = true ∧ item ∈ item_list o ∧
    irow = item_record o item ∧
    irow !! 0 = Some (field o "order_id") ∧
    order_record o ∈ all_orders st ∧
    order_record o !! 0 = irow !! 0.
Proof.
  intros Hex Hin. unfold extract in Hex.
  destruct (py_iter page) as [elements|e] eqn:Hit.
  - destruct (process_orders_batch_integrity _ _ _ _ Hit Hex irow Hin)
      as (o & item & Ho & Hd & Hitem & -> & Horow).
    exists elements, o, item. by repeat split.
  - rewrite (process_orders_batch_not_iterable _ _ _ Hit) in Hex.
    injection Hex as <- <-. by apply elem_of_nil in Hin.
Qed.

Lemma item_rows_reference_orders_sample :
  ∃ elements o item,
    py_iter (JList sample_page) = Ok elements ∧ o ∈ elements ∧
    status_is_delivered o = true ∧ item ∈ item_list o ∧
    [JNum 31; JStr "Vada"; JNum 1] = item_record o item ∧
    [JNum 31; JStr "Vada"; JNum 1] !! 0 = Some (field o "order_id") ∧
    order_record o ∈ all_orders (extract (JList sample_page)).2 ∧
    order_record o !! 0 = [JNum 31; JStr "Vada"; JNum 1] !! 0.
Proof.
  apply (item_rows_reference_orders (JList sample_page)
           (extract (JList sample_page)).1 (extract (JList sample_page)).2).
  - vm_compute. reflexivity.
  - vm_compute. apply list_elem_of_further, list_elem_of_here.
Defined.

(** ** The page fetch *)

(** C2. When the first request and its one retry both fail with a
    connection error, the caller of [fetch_orders_page] receives the bare
    [ConnectionError] of the retry, not the wrapping exception that a
    failure of the first request gets (here a timeout, against
    [remote_timeout]).  In both runs the retry policy is as specified: one
    retry, two seconds after a connection error, and none otherwise. *)
Theorem fetch_orders_page_retry_failure_not_wrapped :
  fetch_orders_page remote_down (JNum 13) [] =
    (Raise ConnectionError,
     [FetchPage (JNum 13); Get (Some (JNum 13)); Sleep 2000;
      Get (Some (JNum 13))]) ∧
  fetch_orders_page remote_timeout (JNum 13) [] =
    (Raise (FetchException RequestException),
     [FetchPage (JNum 13); Get (Some (JNum 13))]).
Proof. split; reflexivity. Qed.

(** ** The paginator *)

Example pages_for_23_orders : ceil_div10 23 = 3%Z.
Proof. reflexivity. Qed.






(** C5. When the first response holds an empty list of orders, the run
    returns two empty tables, shows a notice and no error, and sends no
    request but the first. *)
Theorem zero_orders_run (remote : nat → option json → reply) (w : world)
    (top data : gmap string json) :
  remote (requests_made w) None = Response (Some (JDict top)) →
  top !! "data" = Some (JDict data) →
  data !! "orders" = Some (JList []) →
  fetch_swiggy_orders remote w =
  (Ok (Some (empty_frame, empty_frame)), w ++ [Get None; Ui Info_no_orders]).
Proof.
  intros Hr Htop Hdata. unfold fetch_swiggy_orders, bind.
  rewrite first_page_eq. cbv zeta. rewrite Hr. simpl.
  unfold dict_get. rewrite Htop. simpl.
  assert (data ≠ ∅) as Hne.
  { intros ->. by rewrite lookup_empty in Hdata. }
  rewrite bool_decide_eq_false_2 by done. simpl.
  unfold dict_get. rewrite Hdata. simpl. unfold ret.
  by rewrite <- app_assoc.
Qed.

Lemma zero_orders_run_sample :
  fetch_swiggy_orders remote_no_orders [] =
  (Ok (Some (empty_frame, empty_frame)), [] ++ [Get None; Ui Info_no_orders]).
Proof.
  apply (zero_orders_run remote_no_orders []
           (list_to_map [("data", obj [("orders", JList []);
                                       ("total_orders", JNum 0)])])
           (list_to_map [("orders", JList []); ("total_orders", JNum 0)])).
  - reflexivity.
  - vm_compute. reflexivity.
  - vm_compute. reflexivity.
Defined.

(** C6. When the page fetch of a turn raises, after the retry or without
    one, the loop ends there and the run returns, in its two tables, the
    rows of every page processed before: the first page and those of the
    turns so far, each extracted without error. *)
Theorem partial_results_kept (remote : nat → option json → reply)
    (w0 : world) (pages i : Z) (range : list Z) (hist : list json)
    (s : loop_state) (w : world) (e : exn) (wb : world) :
  run_reaches remote w0 pages (Config (i :: range) hist s w) →
  fetch_orders_page remote (offset_id s)
    (w ++ [Ui (Progress i pages); Ui (Status_fetching (i + 1) pages)])
    = (Raise e, wb) →
  fetch_swiggy_orders remote w0 =
    (Ok (Some (orders_frame (all_orders (rows_of hist)),
               items_frame (all_items (rows_of hist)))),
     wb ++ [Ui (Error_fetching_page (i + 1) e); Ui Progress_done;
            Ui Status_all_fetched]) ∧
  collected s = rows_of hist ∧
  Forall (λ page, (extract page).1 = Ok tt) hist.
Proof.
  intros [_ _ Hrows Hpages Hrun]%run_reaches_inv Hfetch. simpl in *.
  split; [|done]. rewrite Hrun. unfold bind at 1. simpl. unfold bind at 1.
  rewrite loop_body_eq, Hfetch. unfold ret.
  by rewrite finish_eq, Hrows, <- app_assoc.
Qed.

Lemma partial_results_kept_sample :
  fetch_swiggy_orders sample_remote [] =
    (Ok (Some (orders_frame (all_orders (rows_of (history sample_head_2))),
               items_frame (all_items (rows_of (history sample_head_2))))),
     (trace sample_head_2
        ++ [Ui (Progress 2 3); Ui (Status_fetching 3 3); FetchPage (JNum 9);
            Get (Some (JNum 9)); Sleep 2000; Get (Some (JNum 9))])
       ++ [Ui (Error_fetching_page (2 + 1) ConnectionError); Ui Progress_done;
           Ui Status_all_fetched]) ∧
  collected (vars sample_head_2) = rows_of (history sample_head_2) ∧
  Forall (λ page, (extract page).1 = Ok tt) (history sample_head_2).
Proof.
  apply (partial_results_kept sample_remote [] 3 2 []
           (history sample_head_2) (vars sample_head_2) (trace sample_head_2)).
  - exists (JList sample_page), (vars sample_head_1), (trace sample_head_1).
    split; [vm_compute; reflexivity|]. split; [vm_compute; reflexivity|].
    apply rtc_once.
    apply (turn_next sample_remote 3 1 [2%Z] [JList sample_page]
             (vars sample_head_1) (trace sample_head_1) (JList sample_page_2)
             (trace sample_head_1
                ++ [Ui (Progress 1 3); Ui (Status_fetching 2 3);
                    FetchPage (JNum 13); Get (Some (JNum 13))])
             (vars sample_head_2) (trace sample_head_2));
      vm_compute; reflexivity.
  - vm_compute. reflexivity.
Defined.

(** C10, as stated: the last-element access never fails.  An empty string
    (or an empty object) in the place of the orders is not a list, so the
    zero-orders check lets it pass, nothing is extracted from it, and
    [orders[-1]] raises. *)
Lemma cursor_access_fails_on_empty_non_list :
  initial_orders remote_empty_string [] = Ok (JStr "") ∧
  fetch_swiggy_orders remote_empty_string [] =
    (Raise IndexError, [Get None; Ui (Status_found (JNum 0))]) ∧
  initial_orders remote_empty_object [] = Ok (JDict ∅) ∧
  fetch_swiggy_orders remote_empty_object [] =
    (Raise KeyError, [Get None; Ui (Status_found (JNum 0))]).
Proof. repeat split; vm_compute; reflexivity. Qed.

(** C10, amended. When the orders of the first response are a list, no
    run fails in the last-element access [orders[-1]]: the first access
    comes after the zero-orders check and the one in the loop after the
    empty-page break; and at the head of every turn the page that the
    cursor was read from is a list with a last element. *)
Theorem cursor_access_on_nonempty_list (remote : nat → option json → reply)
    (w : world) :
  initial_orders_is_list remote w = true →
  (∀ r w', fetch_swiggy_orders remote w = (r, w') → r ≠ Raise IndexError) ∧
  (∀ pages c, run_reaches remote w pages c →
     ∃ l x, orders (vars c) = JList l ∧ last l = Some x).
Proof.
  intros Hlist. split.
  - intros r w'. by apply fetch_swiggy_orders_no_index_error.
  - intros pages c [_ Hcur _ _ _]%run_reaches_inv.
    apply last_order_id_ok in Hcur as (l & o & -> & Hl & _). eauto.
Qed.

Lemma cursor_access_on_nonempty_list_sample :
  (∀ r w', fetch_swiggy_orders sample_remote [] = (r, w') →
           r ≠ Raise IndexError) ∧
  (∀ pages c, run_reaches sample_remote [] pages c →
     ∃ l x, orders (vars c) = JList l ∧ last l = Some x).
Proof.
  apply (cursor_access_on_nonempty_list sample_remote []).
  vm_compute. reflexivity.
Defined.

(** * Further properties of the code *)

(** ** The extractor on input that is not a page of raw orders *)

Lemma py_filter_delivered_non_object l x :
  x ∈ l → is_dict x = false → py_filter is_delivered l = Raise AttributeError.
Proof.
  intros Hx Hd. induction l as [|y l IH]; [by apply elem_of_nil in Hx|].
  simpl. destruct (is_dict y) eqn:Hy.
  - apply is_dict_inv in Hy as [d ->]. rewrite is_delivered_dict.
    apply elem_of_cons in Hx as [->|Hx]; [done|]. by rewrite IH.
  - by destruct y.
Qed.

(** X1. The filter runs over the whole page before the first row is
    appended: one element that is not a JSON object, anywhere in the page,
    makes the call raise [AttributeError] and leaves both lists as they
    were, whatever delivered orders come before it. *)
Theorem process_orders_batch_non_object (l : list json) (st : lists) (x : json) :
  x ∈ l → is_dict x = false →
  process_orders_batch (JList l) st = (Raise AttributeError, st).
Proof.
  intros Hx Hd. unfold process_orders_batch, bind, lift. simpl.
  by rewrite (py_filter_delivered_non_object l x).
Qed.

Lemma process_orders_batch_non_object_sample :
  process_orders_batch (JList (sample_page ++ [JNum 7])) no_rows
  = (Raise AttributeError, no_rows).
Proof.
  apply (process_orders_batch_non_object (sample_page ++ [JNum 7]) no_rows (JNum 7)).
  - do 3 apply list_elem_of_further. apply list_elem_of_here.
  - reflexivity.
Defined.

Lemma delivered_app l1 l2 : delivered (l1 ++ l2) = delivered l1 ++ delivered l2.
Proof. unfold delivered. apply List.filter_app. Qed.

Lemma delivered_cons o l :
  delivered (o :: l) = if status_is_delivered o then o :: delivered l else delivered l.
Proof. reflexivity. Qed.

Lemma for_each_app {S A} (l1 l2 : list A) (body : A → M S unit) st :
  for_each (l1 ++ l2) body st
  = (for_each l1 body ;;; for_each l2 body) st.
Proof.
  revert st. induction l1 as [|x l1 IH]; intros st; simpl; [done|].
  unfold bind at 1 2 3. destruct (body x st) as [[u|e] st1]; [|done].
  rewrite IH. done.
Qed.

Lemma for_each_items_stop o good bad rest st :
  forallb is_dict good = true → is_dict bad = false →
  for_each (good ++ bad :: rest) (process_item (field o "order_id")) st =
  (Raise AttributeError,
   Lists (all_orders st) (all_items st ++ (item_record o <$> good))).
Proof.
  intros Hgood Hbad. rewrite for_each_app. unfold bind at 1.
  rewrite (for_each_items_ok o good st Hgood). simpl.
  unfold bind. by rewrite process_item_not_dict.
Qed.

(** X2. Rows are appended as they are produced and nothing is taken back:
    when an item of a delivered order is not a JSON object, the call raises
    [AttributeError] with the rows of the orders before it, the row of the
    order itself and the rows of its items up to the defect already in the
    two lists. *)
Theorem process_orders_batch_stops_at_bad_item (pre post good rest : list json)
    (d : gmap string json) (bad : json) (st : lists) :
  raw_page_ok pre = true →
  forallb is_dict post = true →
  status_is_delivered (JDict d) = true →
  d !! "order_items" = Some (JList (good ++ bad :: rest)) →
  forallb is_dict good = true →
  is_dict bad = false →
  process_orders_batch (JList (pre ++ JDict d :: post)) st =
  (Raise AttributeError,
   lists_app st
     (Lists (order_table pre ++ [order_record (JDict d)])
            (item_table pre ++ (item_record (JDict d) <$> good)))).
Proof.
  intros Hpre Hpost Hdel Hitems Hgood Hbad.
  unfold process_orders_batch; simpl.
  unfold bind at 1, lift at 1. unfold bind at 1, lift at 1.
  rewrite py_filter_delivered.
  2:{ rewrite forallb_app. simpl.
      by rewrite (raw_page_ok_dicts _ Hpre), Hpost. }
  rewrite delivered_app, delivered_cons, Hdel.
  rewrite for_each_app. unfold bind at 1.
  rewrite (for_each_orders_ok _ _ (raw_page_ok_delivered _ Hpre)).
  simpl. unfold bind at 1. rewrite process_order_dict. cbv zeta.
  unfold dict_get at 1 2. rewrite Hitems.
  replace (truthy _) with true by (by destruct good).
  cbn [default py_iter id].
  rewrite (for_each_items_stop (JDict d) good bad rest _ Hgood Hbad).
  unfold lists_app, order_table, item_table; simpl.
  by rewrite <- !app_assoc.
Qed.

Lemma process_orders_batch_stops_at_bad_item_sample :
  process_orders_batch
    (JList (sample_page ++ sample_order_bad_item :: sample_page_2)) no_rows =
  (Raise AttributeError,
   lists_app no_rows
     (Lists (order_table sample_page ++ [order_record sample_order_bad_item])
            (item_table sample_page
               ++ (item_record sample_order_bad_item
                     <$> [sample_item "Poha" 1; sample_item "Upma" 1])))).
Proof.
  unfold sample_order_bad_item, sample_order, obj.
  apply (process_orders_batch_stops_at_bad_item sample_page sample_page_2
           [sample_item "Poha" 1; sample_item "Upma" 1]
           [sample_item "Kesari" 1; sample_item "Bonda" 1]
           _ (JStr "Chai") no_rows);
    vm_compute; reflexivity.
Defined.

(** X3. Where the page boundaries fall does not matter: on elements that
    are all JSON objects, one call on two pages joined does what a call on
    the first followed by a call on the second does, errors and partial
    rows included. *)
Theorem process_orders_batch_app (l1 l2 : list json) (st : lists) :
  forallb is_dict (l1 ++ l2) = true →
  process_orders_batch (JList (l1 ++ l2)) st =
  (process_orders_batch (JList l1) ;;; process_orders_batch (JList l2)) st.
Proof.
  intros Hd. pose proof Hd as Hd'. rewrite forallb_app in Hd'.
  apply andb_prop in Hd' as [Hd1 Hd2].
  unfold process_orders_batch; simpl. unfold bind, lift; simpl.
  rewrite !py_filter_delivered by done. rewrite delivered_app, for_each_app.
  unfold bind.
  by destruct (for_each (delivered l1) process_order st) as [[u|e] st1].
Qed.

Lemma process_orders_batch_app_sample :
  process_orders_batch (JList (sample_page ++ sample_page_2)) no_rows =
  (process_orders_batch (JList sample_page)
     ;;; process_orders_batch (JList sample_page_2)) no_rows.
Proof.
  apply (process_orders_batch_app sample_page sample_page_2 no_rows).
  vm_compute. reflexivity.
Defined.

(** ** The shape of the tables *)

Lemma for_each_preserves {S A} (P : S → Prop) (l : list A) (body : A → M S unit) :
  (∀ x st r st', body x st = (r, st') → P st → P st') →
  ∀ st r st', for_each l body st = (r, st') → P st → P st'.
Proof.
  intros Hbody. induction l as [|x l IH]; intros st r st'; simpl.
  - by intros [= _ <-].
  - intros [(u & st1 & E1 & E2)|(e & E1 & _)]%bind_inv; eauto.
Qed.

Lemma process_order_fits o st r st' :
  process_order o st = (r, st') → rows_fit st → rows_fit st'.
Proof.
  intros [->|(Ho & its & Hi & _)]%process_order_inv [Hfo Hfi]; [done|].
  split.
  - rewrite Ho. apply Forall_app. split; [done|]. by constructor.
  - rewrite Hi. apply Forall_app. split; [done|].
    apply Forall_fmap, Forall_true. done.
Qed.

Lemma process_orders_batch_fits page st r st' :
  process_orders_batch page st = (r, st') → rows_fit st → rows_fit st'.
Proof.
  unfold process_orders_batch.
  intros [(els & st1 & E1 & E2)|(e & E1 & _)]%bind_inv.
  - unfold lift in E1. injection E1 as _ <-.
    apply bind_inv in E2 as [(dl & st2 & E2 & E3)|(e & E2 & _)].
    + unfold lift in E2. injection E2 as _ <-. revert E3.
      apply (for_each_preserves rows_fit). apply process_order_fits.
    + unfold lift in E2. by injection E2 as _ <-.
  - unfold lift in E1. by injection E1 as _ <-.
Qed.

Lemma loop_body_fits remote pages i s w f w' :
  loop_body remote pages i s w = (Ok f, w') →
  rows_fit (collected s) →
  rows_fit (collected (match f with Next s' | Break s' => s' end)).
Proof.
  rewrite loop_body_eq. intros E Hfit.
  repeat case_match; simplify_eq; simpl; try done.
  eauto using process_orders_batch_fits.
Qed.

Lemma for_loop_fits remote pages range s w s' w' :
  for_loop remote pages range s w = (Ok s', w') →
  rows_fit (collected s) → rows_fit (collected s').
Proof.
  revert s w. induction range as [|i range IH]; intros s w; simpl.
  - by intros [= <- _].
  - intros [(f & w1 & E1 & E2)|(e & _ & [=])]%bind_inv Hfit.
    apply loop_body_fits in E1; [|done]. destruct f as [s1|s1].
    + eauto.
    + by injection E2 as <- _.
Qed.

(** X4. The tables that a run returns always have one cell per column in
    every row (six in the orders table, three in the items table), so the
    two [pd.DataFrame(..., columns=...)] calls at the end cannot fail on
    the shape of the rows, whatever the service sent. *)
Theorem returned_frames_fit (remote : nat → option json → reply) (w w' : world)
    (orders_df items_df : DataFrame) :
  fetch_swiggy_orders remote w = (Ok (Some (orders_df, items_df)), w') →
  frame_fits orders_df ∧ frame_fits items_df.
Proof.
  unfold fetch_swiggy_orders.
  intros [(en & w1 & E1 & E2)|(e & _ & [=])]%bind_inv.
  destruct en as [res|pages s].
  - injection E2 as -> _. rewrite first_page_eq in E1. cbv zeta in E1.
    repeat case_match; simplify_eq. split; constructor.
  - apply bind_inv in E2 as [(s' & w2 & E3 & E4)|(e & _ & [=])].
    rewrite finish_eq in E4. injection E4 as <- <- _.
    apply first_page_enter_inv in E1 as (_ & _ & Hp & _).
    apply process_orders_batch_fits in Hp; [|by split; constructor].
    apply for_loop_fits in E3 as [Hfo Hfi]; [|done].
    by split.
Qed.

Lemma returned_frames_fit_sample :
  frame_fits (orders_frame (all_orders (rows_of (history sample_head_2)))) ∧
  frame_fits (items_frame (all_items (rows_of (history sample_head_2)))).
Proof.
  apply (returned_frames_fit sample_remote []
           ((trace sample_head_2
               ++ [Ui (Progress 2 3); Ui (Status_fetching 3 3); FetchPage (JNum 9);
                   Get (Some (JNum 9)); Sleep 2000; Get (Some (JNum 9))])
              ++ [Ui (Error_fetching_page (2 + 1) ConnectionError);
                  Ui Progress_done; Ui Status_all_fetched])).
  vm_compute. reflexivity.
Defined.

(** ** One page fetch on the wire *)

Lemma fetch_orders_page_cases remote c w r w' :
  fetch_orders_page remote c w = (r, w') →
  (w' = w ++ [FetchPage c; Get (Some c)] ∧
   remote (requests_made w) (Some c) ≠ ConnectionFails ∧ r ≠ Ok (JList [])) ∨
  (w' = w ++ [FetchPage c; Get (Some c); Ui Warning_no_more; Ui Text_response] ∧
   remote (requests_made w) (Some c) ≠ ConnectionFails ∧ r = Ok (JList [])) ∨
  (w' = w ++ [FetchPage c; Get (Some c); Sleep 2000; Get (Some c)] ∧
   remote (requests_made w) (Some c) = ConnectionFails).
Proof.
  destruct (remote (requests_made w) (Some c)) as [| |body] eqn:Hr.
  - rewrite (fetch_orders_page_retry _ _ _ Hr). intros [= <- <-]. by right; right.
  - rewrite (fetch_orders_page_request_fails _ _ _ Hr). intros [= <- <-].
    by left.
  - destruct (response_orders body) as [fin|e] eqn:Hb.
    + rewrite (fetch_orders_page_ok _ _ _ _ _ Hr Hb). intros [= <- <-].
      destruct fin as [| | | |[|x l]|]; simpl; try by left.
      by right; left.
    + rewrite (fetch_orders_page_malformed _ _ _ _ _ Hr Hb). intros [= <- <-].
      by left.
Qed.


(** X5. A page fetch sends one request, or two; the second only when the
    first failed with a connection error, two seconds later and with the
    same cursor.  The "no more orders" warning is shown only when the
    first request was answered with an empty list, never after a retry. *)
Theorem fetch_orders_page_wire (remote : nat → option json → reply) (c : json)
    (w : world) (r : result json) (w' : world) :
  fetch_orders_page remote c w = (r, w') →
  (w' = w ++ [FetchPage c; Get (Some c)] ∧
   remote (requests_made w) (Some c) ≠ ConnectionFails ∧ r ≠ Ok (JList [])) ∨
  (w' = w ++ [FetchPage c; Get (Some c); Ui Warning_no_more; Ui Text_response] ∧
   remote (requests_made w) (Some c) ≠ ConnectionFails ∧ r = Ok (JList [])) ∨
  (w' = w ++ [FetchPage c; Get (Some c); Sleep 2000; Get (Some c)] ∧
   remote (requests_made w) (Some c) = ConnectionFails).
Proof. apply fetch_orders_page_cases. Qed.

Lemma fetch_orders_page_wire_sample :
  ([FetchPage (JNum 13); Get (Some (JNum 13)); Sleep 2000; Get (Some (JNum 13))]
   = [] ++ [FetchPage (JNum 13); Get (Some (JNum 13))] ∧
   remote_down (requests_made []) (Some (JNum 13)) ≠ ConnectionFails ∧
   Raise ConnectionError ≠ Ok (JList [])) ∨
  ([FetchPage (JNum 13); Get (Some (JNum 13)); Sleep 2000; Get (Some (JNum 13))]
   = [] ++ [FetchPage (JNum 13); Get (Some (JNum 13)); Ui Warning_no_more;
            Ui Text_response] ∧
   remote_down (requests_made []) (Some (JNum 13)) ≠ ConnectionFails ∧
   Raise ConnectionError = Ok (JList [])) ∨
  ([FetchPage (JNum 13); Get (Some (JNum 13)); Sleep 2000; Get (Some (JNum 13))]
   = [] ++ [FetchPage (JNum 13); Get (Some (JNum 13)); Sleep 2000;
            Get (Some (JNum 13))] ∧
   remote_down (requests_made []) (Some (JNum 13)) = ConnectionFails).
Proof.
  apply (fetch_orders_page_wire remote_down (JNum 13) []).
  reflexivity.
Defined.

(** X6. A page fetch returns a page exactly when the first request, or
    after a connection error the retry, is answered with a JSON object
    whose [data] is an object; what it returns is the [orders] of that
    object (the empty list when the key is absent). *)
Theorem fetch_orders_page_returns (remote : nat → option json → reply)
    (c : json) (w : world) (fin : json) :
  (∃ w', fetch_orders_page remote c w = (Ok fin, w')) ↔
  (∃ body,
     response_orders body = Ok fin ∧
     (remote (requests_made w) (Some c) = Response body ∨
      (remote (requests_made w) (Some c) = ConnectionFails ∧
       remote (S (requests_made w)) (Some c) = Response body))).
Proof.
  split.
  - intros [w' E].
    destruct (remote (requests_made w) (Some c)) as [| |body] eqn:Hr.
    + rewrite (fetch_orders_page_retry _ _ _ Hr) in E.
      destruct (remote (S _) _) as [| |body] eqn:Hr2; try done.
      injection E as E _. exists body. eauto.
    + by rewrite (fetch_orders_page_request_fails _ _ _ Hr) in E.
    + destruct (response_orders body) as [fin'|e] eqn:Hb.
      * rewrite (fetch_orders_page_ok _ _ _ _ _ Hr Hb) in E.
        injection E as -> _. exists body. eauto.
      * by rewrite (fetch_orders_page_malformed _ _ _ _ _ Hr Hb) in E.
  - intros (body & Hb & [Hr|[Hr Hr2]]).
    + rewrite (fetch_orders_page_ok _ _ _ _ _ Hr Hb). eauto.
    + rewrite (fetch_orders_page_retry _ _ _ Hr), Hr2, Hb. eauto.
Qed.

(** ** The paginator: the ways a run ends *)

(** X7. The first request of a run is neither retried nor guarded: when
    it fails with a connection error, the exception leaves
    [fetch_swiggy_orders] after that one request, with nothing shown. *)
Theorem first_request_failure_escapes (remote : nat → option json → reply)
    (w : world) :
  remote (requests_made w) None = ConnectionFails →
  fetch_swiggy_orders remote w = (Raise ConnectionError, w ++ [Get None]).
Proof.
  intros Hr. unfold fetch_swiggy_orders, bind.
  rewrite first_page_eq. cbv zeta. by rewrite Hr.
Qed.

Lemma first_request_failure_escapes_sample :
  fetch_swiggy_orders remote_down [] = (Raise ConnectionError, [] ++ [Get None]).
Proof. apply (first_request_failure_escapes remote_down []). reflexivity. Defined.

(** X8. A first response whose [data] is absent, null or empty (anything
    falsy) is reported as "Unable to fetch orders": the run returns
    [(None, None)] and sends no further request. *)
Theorem missing_data_is_reported (remote : nat → option json → reply)
    (w : world) (top : gmap string json) :
  remote (requests_made w) None = Response (Some (JDict top)) →
  truthy (dict_get top "data" JNull) = false →
  fetch_swiggy_orders remote w
  = (Ok None, w ++ [Get None; Ui Error_unable_to_fetch]).
Proof.
  intros Hr Hdata. unfold fetch_swiggy_orders, bind.
  rewrite first_page_eq. cbv zeta. rewrite Hr. simpl. rewrite Hdata. simpl.
  unfold ret. by rewrite <- app_assoc.
Qed.

Lemma missing_data_is_reported_sample :
  fetch_swiggy_orders remote_no_data []
  = (Ok None, [] ++ [Get None; Ui Error_unable_to_fetch]).
Proof.
  apply (missing_data_is_reported remote_no_data []
           (list_to_map [("statusCode", JNum 1)])).
  - reflexivity.
  - vm_compute. reflexivity.
Defined.

Lemma run_from_head remote w0 pages c :
  run_reaches remote w0 pages c →
  fetch_swiggy_orders remote w0 =
  bind (for_loop remote pages (remaining c) (vars c)) finish (trace c) ∧
  collected (vars c) = rows_of (history c).
Proof. by intros [_ _ Hrows _ Hrun]%run_reaches_inv. Qed.

(** X9. A page without orders ends the pagination as a page fetch error
    does: the loop breaks, the status line says that there are no more
    orders, and the run returns the rows of the pages before. *)
Theorem empty_page_ends_run (remote : nat → option json → reply)
    (w0 : world) (pages i : Z) (range : list Z) (hist : list json)
    (s : loop_state) (w : world) (fin : json) (wb : world) :
  run_reaches remote w0 pages (Config (i :: range) hist s w) →
  fetch_orders_page remote (offset_id s)
    (w ++ [Ui (Progress i pages); Ui (Status_fetching (i + 1) pages)])
    = (Ok fin, wb) →
  py_len fin = Ok 0 →
  fetch_swiggy_orders remote w0 =
    (Ok (Some (orders_frame (all_orders (rows_of hist)),
               items_frame (all_items (rows_of hist)))),
     wb ++ [Ui Status_no_more; Ui Progress_done; Ui Status_all_fetched]).
Proof.
  intros [Hrun Hrows]%run_from_head Hfetch Hlen. simpl in *.
  rewrite Hrun. unfold bind at 1. simpl. unfold bind at 1.
  rewrite loop_body_eq, Hfetch, Hlen. simpl. unfold ret.
  by rewrite finish_eq, Hrows, <- app_assoc.
Qed.

Lemma empty_page_ends_run_sample :
  fetch_swiggy_orders remote_short [] =
    (Ok (Some (orders_frame (all_orders (rows_of (history sample_head_1))),
               items_frame (all_items (rows_of (history sample_head_1))))),
     (trace sample_head_1
        ++ [Ui (Progress 1 3); Ui (Status_fetching 2 3); FetchPage (JNum 13);
            Get (Some (JNum 13)); Ui Warning_no_more; Ui Text_response])
       ++ [Ui Status_no_more; Ui Progress_done; Ui Status_all_fetched]).
Proof.
  apply (empty_page_ends_run remote_short [] 3 1 [2%Z]
           (history sample_head_1) (vars sample_head_1) (trace sample_head_1)
           (JList [])).
  - exists (JList sample_page), (vars sample_head_1), (trace sample_head_1).
    split; [vm_compute; reflexivity|]. split; [vm_compute; reflexivity|].
    apply rtc_refl.
  - vm_compute. reflexivity.
  - reflexivity.
Defined.

(** X10. What a fetched page breaks after the fetch is not caught: when
    [len(orders)] raises (the page has null for its orders), when
    [process_orders_batch] raises, or when the last order has no
    [order_id], the exception leaves [fetch_swiggy_orders] and no table is
    returned, the rows of the earlier pages included. *)
Theorem page_defect_loses_results (remote : nat → option json → reply)
    (w0 : world) (pages i : Z) (range : list Z) (hist : list json)
    (s : loop_state) (w : world) (fin : json) (wb : world) (e : exn) :
  run_reaches remote w0 pages (Config (i :: range) hist s w) →
  fetch_orders_page remote (offset_id s)
    (w ++ [Ui (Progress i pages); Ui (Status_fetching (i + 1) pages)])
    = (Ok fin, wb) →
  page_defect (collected s) fin = Some e →
  fetch_swiggy_orders remote w0 = (Raise e, wb).
Proof.
  intros [Hrun _]%run_from_head Hfetch Hdef. simpl in *.
  rewrite Hrun. unfold bind at 1. simpl. unfold bind at 1.
  rewrite loop_body_eq, Hfetch. unfold page_defect in Hdef.
  destruct (py_len fin) as [[|n]|e1]; simpl; simplify_eq; [|done].
  destruct (process_orders_batch fin (collected s)) as [[u|e1] st];
    simplify_eq; [|done].
  by destruct (last_order_id fin); simplify_eq.
Qed.

Lemma page_defect_loses_results_sample :
  fetch_swiggy_orders remote_null_page [] =
  (Raise TypeError,
   trace sample_head_1
     ++ [Ui (Progress 1 3); Ui (Status_fetching 2 3); FetchPage (JNum 13);
         Get (Some (JNum 13))]).
Proof.
  apply (page_defect_loses_results remote_null_page [] 3 1 [2%Z]
           (history sample_head_1) (vars sample_head_1) (trace sample_head_1)
           JNull).
  - exists (JList sample_page), (vars sample_head_1), (trace sample_head_1).
    split; [vm_compute; reflexivity|]. split; [vm_compute; reflexivity|].
    apply rtc_refl.
  - vm_compute. reflexivity.
  - reflexivity.
Defined.

(** ** The politeness delay and the number of requests *)

Lemma paced_app p w1 w2 :
  paced p (w1 ++ w2) = paced p w1 ≫= λ p', paced p' w2.
Proof.
  revert p. induction w1 as [|e w1 IH]; intros p; simpl; [done|].
  destruct e; try apply IH. by destruct p.
Qed.

Lemma paced_quiet p evs : quiet evs = true → is_Some (paced p evs).
Proof.
  revert p. induction evs as [|e evs IH]; intros p; simpl; [by eexists|].
  unfold quiet in *. simpl. intros [He Hq]%andb_prop.
  destruct e; try discriminate; by apply IH.
Qed.

Lemma paced_silent p evs : silent evs = true → paced p evs = Some p.
Proof.
  induction evs as [|e evs IH]; simpl; [done|].
  unfold silent in *. simpl. intros [He Hq]%andb_prop.
  destruct e; try discriminate; by apply IH.
Qed.

Lemma paced_snoc_silent p w evs :
  silent evs = true → paced p (w ++ evs) = paced p w.
Proof.
  intros Hs. rewrite paced_app. destruct (paced p w) as [p'|]; simpl; [|done].
  by apply paced_silent.
Qed.

Lemma loop_body_paced remote pages i s w r w' :
  paced false w = Some false →
  loop_body remote pages i s w = (r, w') →
  is_Some (paced false w') ∧
  ∀ s1, r = Ok (Next s1) → paced false w' = Some false.
Proof.
  intros Hw. rewrite loop_body_eq.
  destruct (fetch_orders_page _ _ _) as [res wb] eqn:Hf.
  apply fetch_orders_page_trace in Hf as (evs & -> & Hq).
  assert (∃ p, paced false
            ((w ++ [Ui (Progress i pages); Ui (Status_fetching (i + 1) pages)])
               ++ FetchPage (offset_id s) :: evs) = Some p) as [p Hp].
  { rewrite !paced_app, Hw. simpl. by apply paced_quiet. }
  intros E.
  repeat case_match; simplify_eq;
    first [rewrite Hp | rewrite paced_app, Hp]; simpl;
    (split; [by eexists|]); try done.
Qed.

Lemma for_loop_paced remote pages range s w r w' :
  paced false w = Some false →
  for_loop remote pages range s w = (r, w') → is_Some (paced false w').
Proof.
  revert s w. induction range as [|i range IH]; intros s w Hw; simpl.
  - intros [= _ <-]. by eexists.
  - intros [(f & w1 & E1 & E2)|(e & E1 & _)]%bind_inv.
    + pose proof (loop_body_paced _ _ _ _ _ _ _ Hw E1) as [Hsome Hnext].
      destruct f as [s1|s1].
      * eapply IH; [|done]. exact (Hnext s1 eq_refl).
      * by injection E2 as _ <-.
    + by pose proof (loop_body_paced _ _ _ _ _ _ _ Hw E1) as [Hsome _].
Qed.

Lemma first_page_silent remote w r w' :
  first_page remote w = (r, w') → ∃ evs, w' = w ++ evs ∧ silent evs = true.
Proof.
  rewrite first_page_eq. cbv zeta. intros E.
  repeat case_match; simplify_eq; rewrite <- ?app_assoc; by eexists.
Qed.

(** X11. The 1.5 s delay is kept throughout: in no run is a page asked
    for while the page before it still waits for its sleep.  Two calls of
    [fetch_orders_page] are always separated by [time.sleep(1.5)]; the
    two-second sleep before a retry does not count for it. *)
Theorem page_fetches_are_paced (remote : nat → option json → reply)
    (w : world) (r : result (option (DataFrame * DataFrame))) (w' : world) :
  paced false w = Some false →
  fetch_swiggy_orders remote w = (r, w') →
  is_Some (paced false w').
Proof.
  intros Hw. unfold fetch_swiggy_orders.
  intros [(en & w1 & E1 & E2)|(e & E1 & _)]%bind_inv.
  - apply first_page_silent in E1 as (evs & -> & Hs).
    assert (paced false (w ++ evs) = Some false) as Hw1
      by (by rewrite paced_snoc_silent).
    destruct en as [res|pages s].
    + injection E2 as _ <-. by eexists.
    + apply bind_inv in E2 as [(s' & w2 & E3 & E4)|(e & E3 & _)].
      * apply (for_loop_paced _ _ _ _ _ _ _ Hw1) in E3.
        rewrite finish_eq in E4. injection E4 as _ <-.
        by rewrite paced_snoc_silent.
      * by apply (for_loop_paced _ _ _ _ _ _ _ Hw1) in E3.
  - apply first_page_silent in E1 as (evs & -> & Hs).
    rewrite paced_snoc_silent by done. by eexists.
Qed.

Lemma page_fetches_are_paced_sample :
  is_Some (paced false (fetch_swiggy_orders sample_remote []).2).
Proof.
  apply (page_fetches_are_paced sample_remote []
           (fetch_swiggy_orders sample_remote []).1).
  - reflexivity.
  - vm_compute. reflexivity.
Defined.











(** ** The token in the root page *)

Import Stdlib.Strings.Ascii.

Lemma string_app_nil_l b : EmptyString +:+ b = b.
Proof. reflexivity. Qed.

Lemma string_app_cons c a b : String c a +:+ b = String c (a +:+ b).
Proof. reflexivity. Qed.

Ltac string_simpl :=
  repeat first [rewrite string_app_cons | rewrite string_app_nil_l].

Lemma string_length_app a b :
  String.length (a +:+ b) = String.length a + String.length b.
Proof.
  induction a as [|c a IH]; string_simpl; simpl; [done|]. by rewrite IH.
Qed.

Lemma string_app_assoc a b c : (a +:+ b) +:+ c = a +:+ b +:+ c.
Proof. induction a as [|x a IH]; string_simpl; [done|]. by rewrite IH. Qed.

Lemma string_prefix_app sep b : String.prefix sep (sep +:+ b) = true.
Proof.
  induction sep as [|c sep IH]; string_simpl; simpl; [by destruct b|].
  by destruct (Ascii.ascii_dec c c).
Qed.

Lemma py_split_from_skip sep t b :
  py_split_from sep (String.length t) (t +:+ b) = py_split_from sep 0 b.
Proof.
  induction t as [|c t IH]; string_simpl; simpl; [by destruct b|done].
Qed.

(** Splitting at the first occurrence. *)
Lemma py_split_first sep pre rest :
  sep ≠ EmptyString →
  py_find sep (pre +:+ sep +:+ rest) = Some (String.length pre) →
  py_split sep (pre +:+ sep +:+ rest) = pre :: py_split sep rest.
Proof.
  intros Hsep. unfold py_split. induction pre as [|c pre IH]; string_simpl.
  - intros _. destruct sep as [|c sep]; [done|]. string_simpl.
    cbn [py_split_from]. rewrite <- string_app_cons, string_prefix_app.
    replace (String.length (String c sep) - 1) with (String.length sep)
      by (simpl; lia).
    f_equal. apply py_split_from_skip.
  - cbn [py_find py_split_from String.length].
    destruct (String.prefix sep (String c (pre +:+ sep +:+ rest))); [done|].
    intros Hf. destruct (py_find sep (pre +:+ sep +:+ rest)) as [n|] eqn:Hn;
      simplify_eq/=. by rewrite IH.
Qed.

(** Without an occurrence there is one piece. *)
Lemma py_split_absent sep s : py_find sep s = None → py_split sep s = [s].
Proof.
  unfold py_split. induction s as [|c s IH].
  - by destruct sep.
  - cbn [py_find py_split_from].
    destruct (String.prefix sep (String c s)); [done|].
    destruct (py_find sep s); [done|]. intros _. by rewrite IH.
Qed.

(** X14. A root page in which "csrfToken" does not occur makes the token
    expression raise [IndexError]: the check [if not csrf_token] of line
    43 is never reached for it. *)
Theorem csrf_token_of_absent (text : string) :
  py_find "csrfToken" text = None → csrf_token_of text = Raise IndexError.
Proof.
  intros Hf. unfold csrf_token_of. by rewrite (py_split_absent _ _ Hf).
Qed.

Lemma csrf_token_of_absent_sample :
  csrf_token_of "<html><body>Access denied</body></html>" = Raise IndexError.
Proof.
  apply (csrf_token_of_absent "<html><body>Access denied</body></html>").
  vm_compute. reflexivity.
Defined.

Lemma py_find_char c a b :
  py_find (String c "") a = None →
  py_find (String c "") (a +:+ String c b) = Some (String.length a).
Proof.
  induction a as [|x a IH]; string_simpl.
  - intros _. simpl. by destruct (Ascii.ascii_dec c c), b.
  - cbn [py_find String.length].
    destruct (String.prefix (String c "") (String x a)) eqn:Hp; [done|].
    assert (String.prefix (String c "") (String x (a +:+ String c b)) = false)
      as ->.
    { simpl in *. destruct (Ascii.ascii_dec c x); [|done]. by destruct a. }
    destruct (py_find (String c "") a); [done|]. intros _. by rewrite IH.
Qed.

(** The first piece runs on over a character that is not the separator. *)
Lemma py_split_head_over c d a b :
  c ≠ d →
  py_find (String c "") a = None →
  ∃ h tl, py_split (String c "") (a +:+ String d b) = (a +:+ String d h) :: tl.
Proof.
  intros Hcd. unfold py_split. induction a as [|x a IH]; string_simpl.
  - intros _. cbn [py_split_from].
    assert (String.prefix (String c "") (String d b) = false) as ->.
    { simpl. by destruct (Ascii.ascii_dec c d). }
    destruct (py_split_from (String c "") 0 b) as [|piece tl]; eauto.
  - cbn [py_find py_split_from].
    destruct (String.prefix (String c "") (String x a)) eqn:Hp; [done|].
    assert (String.prefix (String c "") (String x (a +:+ String d b)) = false)
      as ->.
    { simpl in *. destruct (Ascii.ascii_dec c x); [|done]. by destruct a. }
    destruct (py_find (String c "") a); [done|]. intros _.
    destruct IH as (h & tl & ->); [done|]. eauto.
Qed.

Lemma substring_of_app tok b :
  String.substring 0 (String.length tok) (tok +:+ b) = tok.
Proof.
  induction tok as [|c tok IH]; string_simpl; simpl; [by destruct b|].
  by rewrite IH.
Qed.

Lemma py_slice_quoted lead tok q :
  String.length lead = 2 →
  py_slice_2_minus_1 (lead +:+ tok +:+ String q "") = tok.
Proof.
  destruct lead as [|x [|y [|z lead]]]; try done. intros _. string_simpl.
  unfold py_slice_2_minus_1. cbn [String.length].
  rewrite string_length_app. cbn [String.length String.substring].
  replace (S (S (String.length tok + 1)) - 3) with (String.length tok) by lia.
  apply substring_of_app.
Qed.

(** X15. On a root page where the first "csrfToken" is followed, before
    any other "=" or ";", by an equals sign, two characters (a blank and
    an opening quote), the token, one closing character and a semicolon,
    the token expression yields the token, whatever surrounds it. *)
Theorem csrf_token_of_page (pre mid lead tok post : string) (q : Ascii.ascii) :
  py_find "csrfToken"
    (pre +:+ "csrfToken" +:+ mid +:+ "=" +:+ (lead +:+ tok +:+ String q "")
         +:+ ";" +:+ post)
    = Some (String.length pre) →
  py_find "csrfToken"
    (mid +:+ "=" +:+ (lead +:+ tok +:+ String q "") +:+ ";" +:+ post) = None →
  py_find "=" mid = None →
  py_find "=" (lead +:+ tok +:+ String q "") = None →
  py_find ";" (lead +:+ tok +:+ String q "") = None →
  String.length lead = 2 →
  csrf_token_of
    (pre +:+ "csrfToken" +:+ mid +:+ "=" +:+ (lead +:+ tok +:+ String q "")
         +:+ ";" +:+ post)
  = Ok tok.
Proof.
  intros Hfirst Hnext Hmid Hval_eq Hval_semi Hlead.
  set (val := lead +:+ tok +:+ String q "") in *.
  unfold csrf_token_of.
  assert ("csrfToken" ≠ EmptyString) as Hname by done.
  assert ("=" ≠ EmptyString) as Hequals by done.
  assert (";" ≠ EmptyString) as Hsemi by done.
  rewrite (py_split_first _ _ _ Hname Hfirst), (py_split_absent _ _ Hnext).
  cbn [py_index lookup list_lookup].
  rewrite (py_split_first "=" mid (val +:+ ";" +:+ post) Hequals
             (py_find_char _ _ _ Hmid)).
  cbn [py_index lookup list_lookup].
  string_simpl.
  destruct (py_split_head_over "="%char ";"%char val post ltac:(done) Hval_eq)
    as (h & tl & ->).
  cbn [py_index lookup list_lookup].
  change (String ";"%char h) with (";" +:+ h).
  rewrite (py_split_first ";" val h Hsemi (py_find_char _ _ _ Hval_semi)).
  cbn [py_index lookup list_lookup].
  subst val. by rewrite (py_slice_quoted lead tok q Hlead).
Qed.

Lemma csrf_token_of_page_sample :
  csrf_token_of
    ("<script>window._" +:+ "csrfToken" +:+ " " +:+ "="
       +:+ (" '" +:+ "f3a9c1e7" +:+ String "'"%char "")
       +:+ ";" +:+ "window.x = 1;</script>")
  = Ok "f3a9c1e7".
Proof.
  apply (csrf_token_of_page "<script>window._" " " " '" "f3a9c1e7"
           "window.x = 1;</script>" "'"%char); vm_compute; reflexivity.
Defined.

(** ** Logging in *)

Lemma str_falsy_false s : str_falsy s = false → s ≠ EmptyString.
Proof. unfold str_falsy. by intros ?%bool_decide_eq_false. Qed.

Ltac login_cases H :=
  unfold login, bind, request, render, lift, ret in H;
  repeat case_match; simplify_eq/=;
  repeat match goal with
         | H : _ || _ = false |- _ => apply orb_false_elim in H as [? ?]
         | H : negb _ = false |- _ => apply negb_false_iff in H
         | H : str_falsy _ = false |- _ => apply str_falsy_false in H
         | H : bool_decide _ = false |- _ => apply bool_decide_eq_false in H
         | H : (_ =? _)%Z = true |- _ => apply Z.eqb_eq in H
         end.

Lemma login_true_inv s inputs t lt :
  login s inputs t = (Ok true, lt) →
  request_otp inputs = true ∧ verify_otp inputs = true ∧
  username inputs ≠ EmptyString ∧ otp_input inputs ≠ EmptyString ∧
  ∃ page csrf response,
    get_root s 1 = Answer page ∧
    csrf_token_of (page_text page) = Ok csrf ∧
    post_verify_otp s (otp_input inputs) csrf = Answer response ∧
    status_code response = 200%Z ∧
    post_text response ≠ "Invalid Request" ∧
    PostVerifyOtp (otp_input inputs) csrf ∈ lt.
Proof.
  intros H. login_cases H. repeat split; try done.
  do 3 eexists. repeat split; try done.
  rewrite !elem_of_app. left. left. left. right.
  by apply list_elem_of_singleton.
Qed.

(** X16. The orders endpoint is only ever contacted in a call in which
    both buttons report a click, both fields are filled in, and the OTP
    verification, sent with the token of the refreshed root page, was
    answered with status 200 and a body other than "Invalid Request". *)
Theorem orders_only_after_login (s : site) (inputs : widgets)
    (remote : nat → option json → reply)
    (r : result (option (DataFrame * DataFrame))) (t : call_trace) :
  fetch_swiggy_orders_call s inputs remote = (r, t) →
  orders_trace t ≠ [] →
  request_otp inputs = true ∧ verify_otp inputs = true ∧
  username inputs ≠ EmptyString ∧ otp_input inputs ≠ EmptyString ∧
  ∃ page csrf response,
    get_root s 1 = Answer page ∧
    csrf_token_of (page_text page) = Ok csrf ∧
    post_verify_otp s (otp_input inputs) csrf = Answer response ∧
    status_code response = 200%Z ∧
    post_text response ≠ "Invalid Request" ∧
    PostVerifyOtp (otp_input inputs) csrf ∈ login_trace t.
Proof.
  unfold fetch_swiggy_orders_call.
  destruct (login s inputs []) as [[[|]|e] lt] eqn:Hl.
  - destruct (fetch_swiggy_orders remote []) as [r' w].
    intros [= <- <-] _. simpl. by eapply login_true_inv.
  - by intros [= <- <-].
  - by intros [= <- <-].
Qed.

Lemma orders_only_after_login_sample :
  request_otp sample_inputs = true ∧ verify_otp sample_inputs = true ∧
  username sample_inputs ≠ EmptyString ∧ otp_input sample_inputs ≠ EmptyString ∧
  ∃ page csrf response,
    get_root sample_site 1 = Answer page ∧
    csrf_token_of (page_text page) = Ok csrf ∧
    post_verify_otp sample_site (otp_input sample_inputs) csrf = Answer response ∧
    status_code response = 200%Z ∧
    post_text response ≠ "Invalid Request" ∧
    PostVerifyOtp (otp_input sample_inputs) csrf
      ∈ login_trace
          (fetch_swiggy_orders_call sample_site sample_inputs remote_no_orders).2.
Proof.
  apply (orders_only_after_login sample_site sample_inputs remote_no_orders
           (fetch_swiggy_orders_call sample_site sample_inputs remote_no_orders).1).
  - vm_compute. reflexivity.
  - vm_compute. discriminate.
Defined.

(** Going through a trace that is written out, looking for an event. *)
Ltac find_event H :=
  simpl in H;
  repeat (apply elem_of_cons in H as [H|H]; [try discriminate H|]);
  try (by apply elem_of_nil in H).

Lemma login_send_otp_inv s inputs r lt mobile csrf cookie :
  login s inputs [] = (r, lt) →
  PostSendOtp mobile csrf cookie ∈ lt →
  mobile = username inputs ∧ mobile ≠ EmptyString ∧
  request_otp inputs = true ∧
  ∃ page,
    get_root s 0 = Answer page ∧
    csrf_token_of (page_text page) = Ok csrf ∧ csrf ≠ EmptyString ∧
    page_sw_cookie page = Some cookie ∧ cookie ≠ EmptyString.
Proof.
  intros H Hin. login_cases H; find_event Hin.
  all: injection Hin as -> -> ->.
  all: repeat split; try done.
  all: match goal with
       | Hc : cookie_falsy ?c = false |- _ =>
           destruct c as [k|] eqn:Hk; simpl in *; [|done];
           apply str_falsy_false in Hc
       end.
  all: by eexists.
Qed.

(** X17. The mobile number is posted only in a call in which the field is
    filled in and "Request OTP" reports a click; it goes out together with
    the token and the [__SW] cookie of the root page fetched first in the
    same call, both of them non-empty. *)
Theorem otp_request_payload (s : site) (inputs : widgets)
    (remote : nat → option json → reply)
    (r : result (option (DataFrame * DataFrame))) (t : call_trace)
    (mobile csrf cookie : string) :
  fetch_swiggy_orders_call s inputs remote = (r, t) →
  PostSendOtp mobile csrf cookie ∈ login_trace t →
  mobile = username inputs ∧ mobile ≠ EmptyString ∧
  request_otp inputs = true ∧
  ∃ page,
    get_root s 0 = Answer page ∧
    csrf_token_of (page_text page) = Ok csrf ∧ csrf ≠ EmptyString ∧
    page_sw_cookie page = Some cookie ∧ cookie ≠ EmptyString.
Proof.
  unfold fetch_swiggy_orders_call.
  destruct (login s inputs []) as [res lt] eqn:Hl. intros Hcall Hin.
  apply (login_send_otp_inv s inputs res lt); [done|].
  destruct res as [[|]|e]; [destruct (fetch_swiggy_orders remote [])|..];
    by simplify_eq/=.
Qed.

Lemma otp_request_payload_sample :
  "9876501234" = username sample_inputs ∧ "9876501234" ≠ EmptyString ∧
  request_otp sample_inputs = true ∧
  ∃ page,
    get_root sample_site 0 = Answer page ∧
    csrf_token_of (page_text page) = Ok "f3a9c1e7" ∧ "f3a9c1e7" ≠ EmptyString ∧
    page_sw_cookie page = Some "sw-5521" ∧ "sw-5521" ≠ EmptyString.
Proof.
  apply (otp_request_payload sample_site sample_inputs remote_no_orders
           (fetch_swiggy_orders_call sample_site sample_inputs remote_no_orders).1
           (fetch_swiggy_orders_call sample_site sample_inputs remote_no_orders).2).
  - vm_compute. reflexivity.
  - vm_compute. do 3 apply list_elem_of_further. apply list_elem_of_here.
Defined.

(** X18. When the token found in the root page is empty, or the page came
    without an [__SW] cookie (or with an empty one), the call shows the
    connection error and returns [(None, None)]: no field or button is put
    on the page and nothing is posted. *)
Theorem login_needs_token_and_cookie (s : site) (inputs : widgets)
    (remote : nat → option json → reply) (page : root_page) (token : string) :
  get_root s 0 = Answer page →
  csrf_token_of (page_text page) = Ok token →
  token = EmptyString ∨ page_sw_cookie page = None
    ∨ page_sw_cookie page = Some EmptyString →
  fetch_swiggy_orders_call s inputs remote =
  (Ok None, {| login_trace := [GetRoot; Error_no_connection];
               orders_trace := [] |}).
Proof.
  intros Hroot Htoken Hor.
  unfold fetch_swiggy_orders_call, login, bind, request, render, lift, ret.
  rewrite Hroot, Htoken.
  assert (str_falsy token || cookie_falsy (page_sw_cookie page) = true) as ->.
  { destruct Hor as [->|[->| ->]]; [done|..]; apply orb_true_r. }
  done.
Qed.

Lemma login_needs_token_and_cookie_sample :
  fetch_swiggy_orders_call site_without_cookie sample_inputs sample_remote =
  (Ok None, {| login_trace := [GetRoot; Error_no_connection];
               orders_trace := [] |}).
Proof.
  apply (login_needs_token_and_cookie site_without_cookie sample_inputs
           sample_remote
           {| page_text := sample_root_text; page_sw_cookie := None |}
           "f3a9c1e7").
  - reflexivity.
  - vm_compute. reflexivity.
  - right. left. reflexivity.
Defined.

(** ** The script and the session state *)

Lemma init_state_stored st o x :
  st !! "orders_df" = Some o → st !! "items_df" = Some x → init_state st = st.
Proof.
  intros Ho Hi. unfold init_state.
  rewrite !bool_decide_eq_true_2; [done|by rewrite Hi|by rewrite Ho].
Qed.

Lemma init_state_orders st :
  ∃ o, init_state st !! "orders_df" = Some o ∧
       ∃ i, init_state st !! "items_df" = Some i.
Proof.
  unfold init_state.
  destruct (bool_decide (is_Some (st !! "orders_df"))) eqn:Ho; simpl.
  - destruct (bool_decide (is_Some (st !! "items_df"))) eqn:Hi; simpl.
    + apply bool_decide_eq_true in Ho as [o Ho], Hi as [i Hi]. eauto.
    + exists None. split; [by simplify_map_eq|]. exists None. by simplify_map_eq.
  - exists None. split; [by simplify_map_eq|]. exists None. by simplify_map_eq.
Qed.

Lemma init_state_idemp st : init_state (init_state st) = init_state st.
Proof.
  destruct (init_state_orders st) as (o & Ho & i & Hi).
  by eapply init_state_stored.
Qed.

Lemma stored_lookup_orders (st : gmap string (option DataFrame)) o i :
  (<["items_df" := Some i]> (<["orders_df" := Some o]> st)) !! "orders_df"
  = Some (Some o).
Proof. by simplify_map_eq. Qed.

Lemma stored_lookup_items (st : gmap string (option DataFrame)) o i :
  (<["items_df" := Some i]> (<["orders_df" := Some o]> st)) !! "items_df"
  = Some (Some i).
Proof. by simplify_map_eq. Qed.

(** X19. Once the session state holds an orders table, a run of the
    script does not call [fetch_swiggy_orders]: it sends no request at
    all, whatever the widgets say, and leaves the session state as it
    was. *)
Theorem stored_tables_are_reused (to_csv : DataFrame → string) (s : site)
    (inputs : widgets) (remote : nat → option json → reply)
    (st : gmap string (option DataFrame)) (orders_df : DataFrame)
    (items : option DataFrame) :
  st !! "orders_df" = Some (Some orders_df) →
  st !! "items_df" = Some items →
  call (script to_csv s inputs remote st).2 = None ∧
  state_after (script to_csv s inputs remote st).2 = st.
Proof.
  intros Ho Hi. unfold script.
  rewrite (init_state_stored st _ _ Ho Hi), Ho.
  by destruct (display to_csv st).
Qed.

Lemma stored_tables_are_reused_sample :
  call (script tally_csv sample_site sample_inputs sample_remote
          (<["items_df" := Some empty_frame]>
             (<["orders_df" := Some empty_frame]> ∅))).2 = None ∧
  state_after (script tally_csv sample_site sample_inputs sample_remote
                 (<["items_df" := Some empty_frame]>
                    (<["orders_df" := Some empty_frame]> ∅))).2
  = <["items_df" := Some empty_frame]> (<["orders_df" := Some empty_frame]> ∅).
Proof.
  apply (stored_tables_are_reused tally_csv sample_site sample_inputs
           sample_remote _ empty_frame (Some empty_frame)).
  - vm_compute. reflexivity.
  - vm_compute. reflexivity.
Defined.

(** X20. A call that ends with an orders table without rows (the user
    has no orders, or none that was delivered) is the last one of the
    session: its tables are stored, the page shows neither a table nor a
    download, and every later run finds the stored tables, fetches
    nothing and shows nothing either. *)
Theorem empty_result_is_final (to_csv : DataFrame → string) (s : site)
    (inputs : widgets) (remote : nat → option json → reply)
    (st : gmap string (option DataFrame)) (orders_df items_df : DataFrame)
    (t : call_trace) :
  init_state st !! "orders_df" = Some None →
  fetch_swiggy_orders_call s inputs remote = (Ok (Some (orders_df, items_df)), t) →
  data orders_df = [] →
  let stored := <["items_df" := Some items_df]>
                  (<["orders_df" := Some orders_df]> (init_state st)) in
  script to_csv s inputs remote st =
    (Ok tt, {| state_after := stored; shown := [Title; Intro; How_it_works];
               call := Some t |}) ∧
  ∀ s' inputs' remote',
    script to_csv s' inputs' remote' stored =
    (Ok tt, {| state_after := stored; shown := [Title; Intro; How_it_works];
               call := None |}).
Proof.
  intros Hinit Hcall Hrows stored.
  assert (display to_csv stored = (Ok tt, [])) as Hshow.
  { unfold display, stored. rewrite stored_lookup_orders.
    unfold frame_empty. by rewrite Hrows. }
  split.
  - unfold script. rewrite Hinit, Hcall. fold stored. by rewrite Hshow.
  - intros s' inputs' remote'. unfold script.
    rewrite (init_state_stored stored (Some orders_df) (Some items_df));
      [|apply stored_lookup_orders|apply stored_lookup_items].
    unfold stored at 1. rewrite stored_lookup_orders. fold stored.
    by rewrite Hshow.
Qed.

Lemma empty_result_is_final_sample :
  let stored := <["items_df" := Some empty_frame]>
                  (<["orders_df" := Some empty_frame]> (init_state ∅)) in
  script tally_csv sample_site sample_inputs remote_no_orders ∅ =
    (Ok tt, {| state_after := stored; shown := [Title; Intro; How_it_works];
               call := Some (fetch_swiggy_orders_call sample_site sample_inputs
                               remote_no_orders).2 |}) ∧
  ∀ s' inputs' remote',
    script tally_csv s' inputs' remote' stored =
    (Ok tt, {| state_after := stored; shown := [Title; Intro; How_it_works];
               call := None |}).
Proof.
  apply (empty_result_is_final tally_csv sample_site sample_inputs
           remote_no_orders ∅ empty_frame empty_frame).
  - vm_compute. reflexivity.
  - vm_compute. reflexivity.
  - reflexivity.
Defined.

(** X21. A call that returns [(None, None)] (a field left empty, a button
    not clicked, a login that failed) stores nothing, and the next run of
    the script calls [fetch_swiggy_orders] again, from the first step. *)
Theorem failed_call_is_repeated (to_csv : DataFrame → string) (s : site)
    (inputs : widgets) (remote : nat → option json → reply)
    (st : gmap string (option DataFrame)) (t : call_trace) :
  init_state st !! "orders_df" = Some None →
  fetch_swiggy_orders_call s inputs remote = (Ok None, t) →
  script to_csv s inputs remote st =
    (Ok tt, {| state_after := init_state st; shown := [Title; Intro; How_it_works];
               call := Some t |}) ∧
  ∀ s' inputs' remote',
    call (script to_csv s' inputs' remote' (init_state st)).2 =
    Some (fetch_swiggy_orders_call s' inputs' remote').2.
Proof.
  intros Hinit Hcall.
  assert (display to_csv (init_state st) = (Ok tt, [])) as Hshow
    by (unfold display; by rewrite Hinit).
  split.
  - unfold script. by rewrite Hinit, Hcall, Hshow.
  - intros s' inputs' remote'. unfold script.
    rewrite init_state_idemp, Hinit.
    destruct (fetch_swiggy_orders_call s' inputs' remote')
      as [[[[o i]|]|e] t']; simpl; try done.
    + by destruct (display to_csv (<["items_df":=Some i]> _)).
    + by rewrite Hshow.
Qed.

Lemma failed_call_is_repeated_sample :
  script tally_csv site_without_cookie sample_inputs sample_remote ∅ =
    (Ok tt, {| state_after := init_state ∅; shown := [Title; Intro; How_it_works];
               call := Some {| login_trace := [GetRoot; Error_no_connection];
                               orders_trace := [] |} |}) ∧
  ∀ s' inputs' remote',
    call (script tally_csv s' inputs' remote' (init_state ∅)).2 =
    Some (fetch_swiggy_orders_call s' inputs' remote').2.
Proof.
  apply (failed_call_is_repeated tally_csv site_without_cookie sample_inputs
           sample_remote ∅).
  - vm_compute. reflexivity.
  - vm_compute. reflexivity.
Defined.

(** X22. After a call that ends with an orders table that has rows, every
    later run of the script, whatever the widgets say and without a single
    request, shows the first five rows of the two tables and offers the
    two complete tables for download: the data survives the rerun that a
    click on a download button causes. *)
Theorem fetched_tables_stay_available (to_csv : DataFrame → string) (s : site)
    (inputs : widgets) (remote : nat → option json → reply)
    (st : gmap string (option DataFrame)) (orders_df items_df : DataFrame)
    (t : call_trace) :
  init_state st !! "orders_df" = Some None →
  fetch_swiggy_orders_call s inputs remote = (Ok (Some (orders_df, items_df)), t) →
  frame_empty orders_df = false →
  let stored := <["items_df" := Some items_df]>
                  (<["orders_df" := Some orders_df]> (init_state st)) in
  let page :=
    [Title; Intro; How_it_works; Success_data_fetched;
     Subheader_orders; Table (frame_head orders_df);
     Subheader_items; Table (frame_head items_df);
     Download "Download Orders CSV" (to_csv orders_df) "swiggy_orders.csv"
              "text/csv";
     Download "Download Items CSV" (to_csv items_df) "swiggy_items.csv"
              "text/csv"] in
  script to_csv s inputs remote st =
    (Ok tt, {| state_after := stored; shown := page; call := Some t |}) ∧
  ∀ s' inputs' remote',
    script to_csv s' inputs' remote' stored =
    (Ok tt, {| state_after := stored; shown := page; call := None |}).
Proof.
  intros Hinit Hcall Hrows stored page.
  assert (display to_csv stored = (Ok tt, drop 3 page)) as Hshow.
  { unfold display, stored.
    by rewrite stored_lookup_orders, Hrows, stored_lookup_items. }
  split.
  - unfold script. rewrite Hinit, Hcall. fold stored. by rewrite Hshow.
  - intros s' inputs' remote'. unfold script.
    rewrite (init_state_stored stored (Some orders_df) (Some items_df));
      [|apply stored_lookup_orders|apply stored_lookup_items].
    unfold stored at 1. rewrite stored_lookup_orders. fold stored.
    by rewrite Hshow.
Qed.

Lemma fetched_tables_stay_available_sample :
  let orders_df := orders_frame (all_orders (rows_of (history sample_head_2))) in
  let items_df := items_frame (all_items (rows_of (history sample_head_2))) in
  let stored := <["items_df" := Some items_df]>
                  (<["orders_df" := Some orders_df]> (init_state ∅)) in
  let page :=
    [Title; Intro; How_it_works; Success_data_fetched;
     Subheader_orders; Table (frame_head orders_df);
     Subheader_items; Table (frame_head items_df);
     Download "Download Orders CSV" (tally_csv orders_df) "swiggy_orders.csv"
              "text/csv";
     Download "Download Items CSV" (tally_csv items_df) "swiggy_items.csv"
              "text/csv"] in
  script tally_csv sample_site sample_inputs sample_remote ∅ =
    (Ok tt, {| state_after := stored; shown := page;
               call := Some (fetch_swiggy_orders_call sample_site sample_inputs
                               sample_remote).2 |}) ∧
  ∀ s' inputs' remote',
    script tally_csv s' inputs' remote' stored =
    (Ok tt, {| state_after := stored; shown := page; call := None |}).
Proof.
  apply (fetched_tables_stay_available tally_csv sample_site sample_inputs
           sample_remote ∅
           (orders_frame (all_orders (rows_of (history sample_head_2))))
           (items_frame (all_items (rows_of (history sample_head_2))))).
  - vm_compute. reflexivity.
  - vm_compute. reflexivity.
  - vm_compute. reflexivity.
Defined.

(** ** A run in which nothing goes wrong *)









(** ** When pages are asked for *)



